(** * Multi-signal content ranking: a shallow embedding of [src/ranking]

    The development follows the Python sources file by file:
    [embedder.py], [relevance_scorer.py], [rank_aggregator.py],
    [content_selector.py] and [ranking_system.py].

    Conventions of the embedding.
    - Python floats are modelled by exact rationals ([Q]); equalities
      between scores are stated with [==].
    - A [str] is a [string], read as a sequence of code points below 256.
    - A chunk is a Python dict with the keys ["text"] and ["metadata"]; its
      metadata is a second, mutable dict that several chunk objects may
      share.  Metadata dicts therefore live in a store ([heap]) and a chunk
      holds a reference ([loc]) to its metadata.  The fields of a metadata
      dict are those of [ChunkMetadata] in [chunk_interface_spec.py].
    - Exceptions are modelled by a result type and threaded by a small
      state-and-error monad.
    - What the code takes from outside the repository is a parameter of
      the definitions that use it: the embedding providers and the MD5
      digest, [datetime.strptime], and the readings of the clocks. *)

From Stdlib Require Import QArith Qminmax Qabs Qround Lqa ZArith Lia.
From Stdlib Require Import Ascii String.
From Stdlib Require DecimalString.
From Stdlib Require Import Sorted Permutation.
From stdpp Require Import base option list gmap strings.

Local Open Scope string_scope.
Local Open Scope list_scope.

(** ** Python strings *)

Module PyStr.

(** [str.isspace] on the code points below 256. *)
Definition is_space (c : ascii) : bool :=
  let n := nat_of_ascii c in
  (((9 <=? n) && (n <=? 13)) || ((28 <=? n) && (n <=? 32))
   || (n =? 133) || (n =? 160))%nat.

(** [text.split()]: the maximal runs of non-whitespace characters.
    [cur] is the word being read, if any. *)
Fixpoint split_from (cur : option string) (s : string) : list string :=
  match s with
  | EmptyString => match cur with Some w => [w] | None => [] end
  | String c s' =>
      if is_space c then
        match cur with
        | Some w => w :: split_from None s'
        | None => split_from None s'
        end
      else split_from (Some (default "" cur +:+ String c "")) s'
  end.

Definition split (s : string) : list string := split_from None s.

(** [str.lower] on the code points below 256. *)
Definition lower_char (c : ascii) : ascii :=
  let n := nat_of_ascii c in
  if (((65 <=? n) && (n <=? 90))
      || ((192 <=? n) && (n <=? 222) && negb (n =? 215)))%nat
  then ascii_of_nat (n + 32) else c.

Fixpoint lower (s : string) : string :=
  match s with
  | EmptyString => EmptyString
  | String c s' => String (lower_char c) (lower s')
  end.

(** [s.startswith(p)] *)
Fixpoint startswith (p s : string) : bool :=
  match p, s with
  | EmptyString, _ => true
  | String a p', String b s' => if Ascii.eqb a b then startswith p' s' else false
  | String _ _, EmptyString => false
  end.

(** [sub in s] *)
Fixpoint contains (sub s : string) : bool :=
  startswith sub s ||
  match s with
  | EmptyString => false
  | String _ s' => contains sub s'
  end.

(** [s.endswith(suf)] *)
Fixpoint endswith (suf s : string) : bool :=
  String.eqb suf s ||
  match s with
  | EmptyString => false
  | String _ s' => endswith suf s'
  end.

(** [s * n] *)
Fixpoint repeat_str (s : string) (n : nat) : string :=
  match n with
  | O => EmptyString
  | S n' => s +:+ repeat_str s n'
  end.

End PyStr.

(** ** Values, exceptions and the store *)

Module Py.

(** The exceptions that the ranking code can meet. *)
Inductive exn : Set :=
| ValueError          (* numpy: shapes not aligned *)
| ZeroDivisionError   (* float division by zero *)
| ProviderError.      (* any failure of an embedding provider *)

Inductive result (A : Type) : Type :=
| Ok (a : A)
| Raise (e : exn).
Arguments Ok {A} a.
Arguments Raise {A} e.

(** A naive [datetime]: the proleptic Gregorian ordinal of its date and
    the microseconds elapsed since midnight. *)
Record datetime : Set := { dt_ordinal : Z; dt_micros : Z }.

Definition day_micros : Z := 86400000000.

(** [(a - b).days]: a [timedelta] is normalised so that its seconds and
    microseconds are non-negative, the days carry the sign. *)
Definition timedelta_days (a b : datetime) : Z :=
  (dt_ordinal a - dt_ordinal b) + (dt_micros a - dt_micros b) / day_micros.

(** The value stored under ["publication_date"]. *)
Inductive pubdate : Set :=
| DateStr (s : string)
| DateObj (d : datetime).

(** A metadata dict; [None] is an absent key. *)
Record metadata : Type := {
  url : option string;
  source_type : option string;
  publication_date : option pubdate;
  embedding : option (list Q);
  relevance_score : option Q;
  quality_score : option Q;
  recency_score : option Q;
  authority_score : option Q;
  final_score : option Q
}.

(** The literal [{}]. *)
Definition empty_metadata : metadata :=
  {| url := None; source_type := None; publication_date := None;
     embedding := None; relevance_score := None; quality_score := None;
     recency_score := None; authority_score := None; final_score := None |}.

#[global] Instance metadata_inhabited : Inhabited metadata :=
  populate empty_metadata.

(** [metadata[key] = v], one function per key written by the code. *)
Definition set_embedding (v : list Q) (m : metadata) : metadata :=
  {| url := url m; source_type := source_type m;
     publication_date := publication_date m; embedding := Some v;
     relevance_score := relevance_score m; quality_score := quality_score m;
     recency_score := recency_score m; authority_score := authority_score m;
     final_score := final_score m |}.

Definition set_relevance_score (v : Q) (m : metadata) : metadata :=
  {| url := url m; source_type := source_type m;
     publication_date := publication_date m; embedding := embedding m;
     relevance_score := Some v; quality_score := quality_score m;
     recency_score := recency_score m; authority_score := authority_score m;
     final_score := final_score m |}.

Definition set_quality_score (v : Q) (m : metadata) : metadata :=
  {| url := url m; source_type := source_type m;
     publication_date := publication_date m; embedding := embedding m;
     relevance_score := relevance_score m; quality_score := Some v;
     recency_score := recency_score m; authority_score := authority_score m;
     final_score := final_score m |}.

Definition set_recency_score (v : Q) (m : metadata) : metadata :=
  {| url := url m; source_type := source_type m;
     publication_date := publication_date m; embedding := embedding m;
     relevance_score := relevance_score m; quality_score := quality_score m;
     recency_score := Some v; authority_score := authority_score m;
     final_score := final_score m |}.

Definition set_authority_score (v : Q) (m : metadata) : metadata :=
  {| url := url m; source_type := source_type m;
     publication_date := publication_date m; embedding := embedding m;
     relevance_score := relevance_score m; quality_score := quality_score m;
     recency_score := recency_score m; authority_score := Some v;
     final_score := final_score m |}.

Definition set_final_score (v : Q) (m : metadata) : metadata :=
  {| url := url m; source_type := source_type m;
     publication_date := publication_date m; embedding := embedding m;
     relevance_score := relevance_score m; quality_score := quality_score m;
     recency_score := recency_score m; authority_score := authority_score m;
     final_score := Some v |}.

(** References to metadata dicts and the store that holds them. *)
Abbreviation loc := positive.
Abbreviation heap := (gmap positive metadata).

(** A chunk dict: the value under ["text"] and a reference to the dict
    under ["metadata"]; [None] is an absent key. *)
Record chunk : Set := { text : option string; meta : option loc }.

(** [chunk.get("text", "")] *)
Definition get_text (c : chunk) : string := default "" (text c).

(** The metadata of a chunk as a reader sees it:
    [chunk.get("metadata", {})] without keeping the fresh dict. *)
Definition peek_metadata (h : heap) (c : chunk) : metadata :=
  match meta c with
  | Some l => h !!! l
  | None => empty_metadata
  end.

(** *** The monad: a store threaded through code that may raise. *)
Definition M (A : Type) : Type := heap -> heap * result A.

Definition ret {A} (a : A) : M A := fun h => (h, Ok a).

Definition raise {A} (e : exn) : M A := fun h => (h, Raise e).

Definition bind {A B} (m : M A) (k : A -> M B) : M B :=
  fun h =>
    match m h with
    | (h', Ok a) => k a h'
    | (h', Raise e) => (h', Raise e)
    end.

Definition lift {A} (r : result A) : M A := fun h => (h, r).

(** [try: m  except Exception: handler] *)
Definition try_except {A} (m : M A) (handler : exn -> M A) : M A :=
  fun h =>
    match m h with
    | (h', Ok a) => (h', Ok a)
    | (h', Raise e) => handler e h'
    end.

(** [chunk.get("metadata", {})]: the chunk's own dict or a fresh one. *)
Definition chunk_metadata (c : chunk) : M loc :=
  fun h =>
    match meta c with
    | Some l => (h, Ok l)
    | None => let l := fresh (dom h) in (<[l := empty_metadata]> h, Ok l)
    end.

(** Reading the dict behind a reference. *)
Definition load (l : loc) : M metadata := fun h => (h, Ok (h !!! l)).

(** A computation that only reads the store. *)
Definition read {A} (f : heap -> A) : M A := fun h => (h, Ok (f h)).

(** [metadata[key] = v] on the dict behind a reference. *)
Definition store (l : loc) (f : metadata -> metadata) : M unit :=
  fun h => (<[l := f (h !!! l)]> h, Ok tt).

(** [d.copy()]: a new dict with the same items. *)
Definition copy_dict (m : metadata) : M loc :=
  fun h => let l := fresh (dom h) in (<[l := m]> h, Ok l).

(** [for x in xs: out.append(body(i, x))], [i] counting from [start]. *)
Fixpoint for_each_from {A B} (start : nat) (body : nat -> A -> M B)
    (xs : list A) : M (list B) :=
  match xs with
  | [] => ret []
  | x :: xs' =>
      bind (body start x) (fun y =>
      bind (for_each_from (S start) body xs') (fun ys => ret (y :: ys)))
  end.

Definition for_each {A B} (body : A -> M B) (xs : list A) : M (list B) :=
  for_each_from 0 (fun _ => body) xs.

(** [not xs] for a list. *)
Definition is_empty {A} (xs : list A) : bool :=
  match xs with
  | [] => true
  | _ :: _ => false
  end.

(** [bool(v)] for an optional list: absent, [None] and [[]] are falsy. *)
Definition truthy (v : option (list Q)) : bool :=
  match v with
  | Some (_ :: _) => true
  | _ => false
  end.

End Py.

Import Py.

Declare Scope py_scope.
Delimit Scope py_scope with py.
Notation "'let*' x ':=' m 'in' k" := (bind m (fun x => k))
  (at level 10, x name, m at level 100, k at level 200) : py_scope.
Notation "m ';;' k" := (bind m (fun _ => k))
  (at level 100, k at level 200, right associativity) : py_scope.

(** ** [embedder.py] *)

Module Embedder.

(** The dimension of the fallback embedding. *)
Definition D : nat := 1536.

(** [np.dot] on two 1-D arrays; numpy raises [ValueError] when the
    shapes are not aligned. *)
Fixpoint np_dot (a b : list Q) : result Q :=
  match a, b with
  | [], [] => Ok 0%Q
  | x :: a', y :: b' =>
      match np_dot a' b' with
      | Ok d => Ok (x * y + d)%Q
      | Raise e => Raise e
      end
  | _, _ => Raise ValueError
  end.

(** The square root of numpy, which is not under [src/]: exact on the
    squares of rationals, truncated to a multiple of [2^-64 / den]
    elsewhere (numpy rounds to the nearest float). *)
Definition np_sqrt (q : Q) : Q :=
  Qmake (Z.sqrt (Qnum q * Zpos (Qden q) * 2 ^ 128))
        (Qden q * 2 ^ 64).

(** [np.linalg.norm] *)
Definition np_linalg_norm (v : list Q) : Q :=
  np_sqrt (fold_right (fun x acc => x * x + acc)%Q 0%Q v).

(** [ContentEmbedder.compute_similarity] *)
Definition compute_similarity (embedding1 embedding2 : list Q) : result Q :=
  if negb (truthy (Some embedding1)) || negb (truthy (Some embedding2))
  then Ok 0%Q
  else
    let norm1 := np_linalg_norm embedding1 in
    let norm2 := np_linalg_norm embedding2 in
    if Qeq_bool norm1 0 || Qeq_bool norm2 0 then Ok 0%Q
    else
      match np_dot embedding1 embedding2 with
      | Ok d => Ok (d / (norm1 * norm2))%Q
      | Raise e => Raise e
      end.

(** [(np_array.astype(np.float32) / 128.0) - 1.0] on one [uint8]; the
    result is a multiple of [1/128] and exact in [float32]. *)
Definition byte_to_float (b : Byte.byte) : Q :=
  (inject_Z (Z.of_N (Byte.to_N b)) / 128 - 1)%Q.

(** [while len(embedding) < 1536: embedding = concatenate([embedding,
    embedding])].  A run that ends takes at most eleven rounds (the
    length doubles from at least 1); [None] is a run that does not end. *)
Fixpoint tile (fuel : nat) (e : list Q) : option (list Q) :=
  if (length e <? D)%nat then
    match fuel with
    | O => None
    | S fuel' => tile fuel' (e ++ e)
    end
  else Some e.

Section Providers.

(** [hashlib.md5(text.encode()).digest()] *)
Variable md5_digest : string -> list Byte.byte.

(** The two outside providers: the remote API and the local model.
    Each returns an embedding, [None], or raises. *)
Variable api_embedding : string -> result (option (list Q)).
Variable local_embedding : string -> result (option (list Q)).

(** [ContentEmbedder._mock_embedding] *)
Definition _mock_embedding (text : string) : option (list Q) :=
  let hash_bytes := md5_digest text in
  let embedding := map byte_to_float hash_bytes in
  match tile 11 embedding with
  | Some embedding => Some (take D embedding)
  | None => None
  end.

(** One round of the loop over [methods]: [Some e] when the method
    returned a truthy embedding, [None] when the loop goes on (the
    method returned a falsy value or raised). *)
Definition attempt (r : result (option (list Q))) : option (list Q) :=
  match r with
  | Ok v => if truthy v then v else None
  | Raise _ => None
  end.

(** [ContentEmbedder.embed_content]; [None]: the call does not return. *)
Definition embed_content (text : string) : option (list Q) :=
  match attempt (api_embedding text) with
  | Some e => Some e
  | None =>
      match attempt (local_embedding text) with
      | Some e => Some e
      | None =>
          match _mock_embedding text with
          | None => None
          | Some e =>
              if truthy (Some e) then Some e
              else _mock_embedding text
          end
      end
  end.

End Providers.

End Embedder.

(** ** Queries *)

Module Query.

(** A query dict.  [q_metadata] is [None] when the key ["metadata"] is
    absent, [Some None] when the metadata dict has no ["embedding"], and
    [Some (Some v)] when the embedding is [v].  Queries are passed by
    value: the code that completes a query returns the completed one. *)
Record query : Type := {
  q_text : option string;
  q_metadata : option (option (list Q))
}.

(** [bool(query)]: a dict is falsy when it has no key. *)
Definition query_truthy (q : query) : bool :=
  match q_text q, q_metadata q with
  | None, None => false
  | _, _ => true
  end.

(** [query.get("metadata", {}).get("embedding")] *)
Definition query_embedding (q : query) : option (list Q) :=
  match q_metadata q with
  | Some (Some v) => Some v
  | _ => None
  end.

(** The argument of the public API: a raw string or a query dict. *)
Inductive query_arg : Type :=
| QText (s : string)
| QDict (q : query).

End Query.

Import Query.

(** ** [relevance_scorer.py] *)

Module RelevanceScorer.

Local Open Scope py_scope.

Definition quality_indicators : list string :=
  [ "introduction"; "methodology"; "results"; "conclusion"; "references";
    "abstract"; "discussion"; "analysis"; "experiment"; "findings" ].

(** [sum(1 for indicator in quality_indicators if indicator in text_lower)] *)
Definition indicator_count (text : string) : nat :=
  let text_lower := PyStr.lower text in
  length (filter (fun indicator => PyStr.contains indicator text_lower = true)
                 quality_indicators).

(** [RelevanceScorer.assess_content_quality] *)
Definition assess_content_quality (c : chunk) : Q :=
  let text := get_text c in
  let word_count := length (PyStr.split text) in
  let quality_score :=
    if (300 <? word_count)%nat then 1.0%Q
    else if (150 <? word_count)%nat then 0.8%Q
    else if (75 <? word_count)%nat then 0.6%Q
    else 0.4%Q in
  let indicator_count := indicator_count text in
  if (3 <=? indicator_count)%nat then Qmin 1.0 (quality_score + 0.2)
  else if (1 <=? indicator_count)%nat then Qmin 1.0 (quality_score + 0.1)
  else quality_score.

(** The formats tried on a date string, in order. *)
Definition date_formats : list string :=
  [ "%Y-%m-%d"; "%Y/%m/%d"; "%Y-%m-%dT%H:%M:%S" ].

Section Library.

(** [datetime.strptime(date_string, format)] of the Python library;
    [None] is its [ValueError]. *)
Variable strptime : string -> string -> option datetime.

(** The embedder handed to the scorer: its [embed_content]. *)
Variable embed_content : string -> list Q.

(** The loop over the formats: the first one that parses wins. *)
Fixpoint parse_date (date_str : string) (formats : list string)
    : option datetime :=
  match formats with
  | [] => None
  | fmt :: formats' =>
      match strptime date_str fmt with
      | Some d => Some d
      | None => parse_date date_str formats'
      end
  end.

(** The linear decay of [calculate_recency_score]. *)
Definition recency_of (now pub_date : datetime) : Q :=
  let days_old := timedelta_days now pub_date in
  let years_old := (inject_Z days_old / 365)%Q in
  Qmax 0 (1 - years_old / 5).

(** [RelevanceScorer.calculate_recency_score]; [now] is the reading of
    [datetime.now()]. *)
Definition calculate_recency_score (now : datetime) (h : heap)
    (c : chunk) : Q :=
  let metadata := peek_metadata h c in
  match publication_date metadata with
  | None => 0.5%Q
  | Some (DateStr "") => 0.5%Q
  | Some (DateObj pub_date) => recency_of now pub_date
  | Some (DateStr date_str) =>
      match parse_date date_str date_formats with
      | None => 0.5%Q
      | Some pub_date => recency_of now pub_date
      end
  end.

(** [RelevanceScorer.score_chunks] *)
Definition score_chunks (q : query) (chunks : list chunk)
    : M (list chunk) :=
  let query_embedding := query_embedding q in
  let query_embedding :=
    match q_text q with
    | Some query_text =>
        if negb (truthy query_embedding)
        then Some (embed_content query_text) else query_embedding
    | None => query_embedding
    end in
  match query_embedding with
  | Some ((_ :: _) as query_embedding) =>
      for_each (fun c =>
        let* metadata := chunk_metadata c in
        let* md := load metadata in
        let chunk_embedding := embedding md in
        let chunk_embedding :=
          match text c with
          | Some chunk_text =>
              if negb (truthy chunk_embedding)
              then Some (embed_content chunk_text) else chunk_embedding
          | None => chunk_embedding
          end in
        match chunk_embedding with
        | Some ((_ :: _) as chunk_embedding) =>
            let* similarity :=
              lift (Embedder.compute_similarity query_embedding
                                               chunk_embedding) in
            let quality_score := assess_content_quality c in
            store metadata (set_relevance_score similarity) ;;
            store metadata (set_quality_score quality_score) ;;
            store metadata (set_embedding chunk_embedding) ;;
            ret {| text := Some (get_text c); meta := Some metadata |}
        | _ =>
            store metadata (set_relevance_score 0.1) ;;
            ret c
        end) chunks
  | _ => ret chunks
  end.

End Library.

End RelevanceScorer.

(** ** [rank_aggregator.py] *)

Module RankAggregator.

Local Open Scope py_scope.

(** [self.weights] *)
Record weights : Set := { semantic : Q; authority : Q; recency : Q }.

(** The ["ranking"] section of the settings file; [None] is an absent
    key. *)
Record ranking_config : Set := {
  weight_semantic : option Q;
  weight_authority : option Q;
  weight_recency : option Q
}.

Definition default_weights : weights :=
  {| semantic := 0.5; authority := 0.3; recency := 0.2 |}.

(** [sum(self.weights.values())]: the builtin starts from 0. *)
Definition weights_sum (w : weights) : Q :=
  (0 + semantic w + authority w + recency w)%Q.

(** [RankAggregator._load_weights]; [None] is a settings file that is
    missing or cannot be read. *)
Definition _load_weights (config : option ranking_config) : weights :=
  match config with
  | Some ranking_config =>
      let weights :=
        {| semantic := default (semantic default_weights)
                               (weight_semantic ranking_config);
           authority := default (authority default_weights)
                                (weight_authority ranking_config);
           recency := default (recency default_weights)
                              (weight_recency ranking_config) |} in
      let total := weights_sum weights in
      if Qlt_le_dec 0 total then
        {| semantic := semantic weights / total;
           authority := authority weights / total;
           recency := recency weights / total |}
      else weights
  | None => default_weights
  end.

(** Float division: Python raises on a zero divisor. *)
Definition py_div (a b : Q) : result Q :=
  if Qeq_bool b 0 then Raise ZeroDivisionError else Ok (a / b)%Q.

(** The weighted sum of [calculate_final_scores], before normalising. *)
Definition weighted_sum (w : weights) (md : metadata) : Q :=
  let relevance := default 0.5%Q (relevance_score md) in
  let authority_ := default 0.5%Q (authority_score md) in
  let recency_ := default 0.5%Q (recency_score md) in
  let quality := default 0.5%Q (quality_score md) in
  (relevance * semantic w + authority_ * authority w
   + recency_ * recency w + quality * 0.1)%Q.

(** [RankAggregator.calculate_final_scores] *)
Definition calculate_final_scores (w : weights) (chunks : list chunk)
    : M (list chunk) :=
  match chunks with
  | [] => ret []
  | _ =>
      for_each (fun c =>
        let* metadata := chunk_metadata c in
        let* md := load metadata in
        let* final_score :=
          lift (py_div (weighted_sum w md) (weights_sum w + 0.1)) in
        store metadata (set_final_score final_score) ;;
        ret {| text := Some (get_text c); meta := Some metadata |}) chunks
  end.

(** Python's [sorted(xs, key=key, reverse=True)]: a stable sort into
    descending order of the keys.  [insert_desc] puts [x] in front of a
    sorted list of elements that came after it in the input, so [x]
    moves right only past strictly greater keys. *)
Fixpoint insert_desc {A} (key : A -> Q) (x : A) (l : list A) : list A :=
  match l with
  | [] => [x]
  | y :: l' =>
      if Qlt_le_dec (key x) (key y) then y :: insert_desc key x l'
      else x :: y :: l'
  end.

Definition sorted_reverse {A} (key : A -> Q) (l : list A) : list A :=
  fold_right (insert_desc key) [] l.

(** [x.get("metadata", {}).get("final_score", 0)] *)
Definition final_score_key (h : heap) (c : chunk) : Q :=
  default 0%Q (final_score (peek_metadata h c)).

(** [RankAggregator.rank_chunks] *)
Definition rank_chunks (chunks : list chunk) : M (list chunk) :=
  fun h => (h, Ok (sorted_reverse (final_score_key h) chunks)).

(** The slice [xs[:n]]: a negative [n] counts from the end. *)
Definition slice_to {A} (n : Z) (xs : list A) : list A :=
  if (n <? 0)%Z then take (Z.to_nat (Z.of_nat (length xs) + n)) xs
  else take (Z.to_nat n) xs.

(** [RankAggregator.select_top_chunks] *)
Definition select_top_chunks (chunks : list chunk) (top_n : Z)
    : M (list chunk) :=
  let* ranked_chunks := rank_chunks chunks in
  ret (slice_to top_n ranked_chunks).

(** The authority table, in the order of the dict literal. *)
Definition domain_scores : list (string * Q) :=
  [ ("arxiv.org", 0.85%Q); ("scholar.google.com", 0.80%Q);
    ("pubmed.ncbi.nlm.nih.gov", 0.90%Q); ("nature.com", 0.95%Q);
    ("science.org", 0.95%Q); ("ieee.org", 0.85%Q); ("acm.org", 0.85%Q);
    ("nih.gov", 0.90%Q); ("edu", 0.80%Q); ("gov", 0.85%Q);
    ("org", 0.75%Q); ("com", 0.60%Q) ].

(** *** The regular expression [https?://(?:www\.)?([^/]+)] *)

(** [s] without its prefix [p], when it has it. *)
Fixpoint strip_prefix (p s : string) : option string :=
  match p, s with
  | EmptyString, _ => Some s
  | String a p', String b s' =>
      if Ascii.eqb a b then strip_prefix p' s' else None
  | String _ _, EmptyString => None
  end.

(** The greedy [[^/]*] at the head of [s]. *)
Fixpoint span_not_slash (s : string) : string :=
  match s with
  | EmptyString => EmptyString
  | String c s' =>
      if Ascii.eqb c "/"%char then EmptyString
      else String c (span_not_slash s')
  end.

Definition nonempty (s : string) : option string :=
  match s with
  | EmptyString => None
  | _ => Some s
  end.

(** The match of the expression anchored at the head of [s]: its group
    1.  The optional [s] and the optional [www.] are greedy; the matcher
    falls back to the empty alternative when the rest cannot match. *)
Definition match_domain_at (s : string) : option string :=
  match strip_prefix "http" s with
  | None => None
  | Some r =>
      let after_scheme :=
        match strip_prefix "s://" r with
        | Some r' => Some r'
        | None => strip_prefix "://" r
        end in
      match after_scheme with
      | None => None
      | Some r1 =>
          let with_www :=
            match strip_prefix "www." r1 with
            | Some r2 => nonempty (span_not_slash r2)
            | None => None
            end in
          match with_www with
          | Some d => Some d
          | None => nonempty (span_not_slash r1)
          end
      end
  end.

(** [re.search]: the match at the leftmost position that has one. *)
Fixpoint re_search_domain (s : string) : option string :=
  match match_domain_at s with
  | Some d => Some d
  | None =>
      match s with
      | EmptyString => None
      | String _ s' => re_search_domain s'
      end
  end.

(** [domain_match.group(1) if domain_match else ""] *)
Definition extract_domain (url : string) : string :=
  default "" (re_search_domain url).

(** [domain_scores[domain]], [None] when [domain not in domain_scores]. *)
Fixpoint table_lookup (domain : string) (items : list (string * Q))
    : option Q :=
  match items with
  | [] => None
  | (d, score) :: items' =>
      if String.eqb domain d then Some score
      else table_lookup domain items'
  end.

(** The loop over [domain_scores.items()] with its [break]. *)
Fixpoint partial_match (domain : string) (items : list (string * Q))
    : option Q :=
  match items with
  | [] => None
  | (d, score) :: items' =>
      if PyStr.endswith ("." +:+ d) domain then Some (score * 0.9)%Q
      else partial_match domain items'
  end.

(** The body of the loop of [compute_authority_scores] up to the write. *)
Definition authority_of (md : metadata) : Q :=
  let url := default "" (url md) in
  let domain := extract_domain url in
  let authority_score :=
    match table_lookup domain domain_scores with
    | Some score => score
    | None => default 0.5%Q (partial_match domain domain_scores)
    end in
  let source_type := default "" (source_type md) in
  if String.eqb source_type "academic"
  then Qmin 1.0 (authority_score * 1.1)
  else authority_score.

(** [RankAggregator.compute_authority_scores] *)
Definition compute_authority_scores (chunks : list chunk)
    : M (list chunk) :=
  for_each (fun c =>
    let* metadata := chunk_metadata c in
    let* md := load metadata in
    let authority_score := authority_of md in
    store metadata (set_authority_score authority_score) ;;
    ret {| text := Some (get_text c); meta := Some metadata |}) chunks.

End RankAggregator.

(** ** [content_selector.py] *)

Module ContentSelector.

Local Open Scope py_scope.

Section Library.

Variable strptime : string -> string -> option datetime.
Variable embed_content : string -> list Q.

(** The readings of [datetime.now()], one per chunk of the recency
    loop, by the position of the chunk. *)
Variable now : nat -> datetime.

(** [self.rank_aggregator.weights] *)
Variable weights : RankAggregator.weights.

(** [ContentSelector.process_query] on a query dict. *)
Definition process_query (q : query) : query :=
  match q_text q with
  | None => q
  | Some query_text =>
      match q_metadata q with
      | Some (Some _) => q
      | _ => {| q_text := Some query_text;
                q_metadata := Some (Some (embed_content query_text)) |}
      end
  end.

(** ["metadata" not in query or "embedding" not in
    query.get("metadata", {})] *)
Definition lacks_embedding (q : query) : bool :=
  match q_metadata q with
  | Some (Some _) => false
  | _ => true
  end.

(** [ContentSelector.select_content] *)
Definition select_content (q : query) (chunks : list chunk) (top_n : Z)
    : M (list chunk) :=
  if negb (query_truthy q) || is_empty chunks then ret []
  else
    let q := if lacks_embedding q then process_query q else q in
    let* relevance_scored_chunks :=
      RelevanceScorer.score_chunks embed_content q chunks in
    let* recency_scored_chunks :=
      for_each_from 0 (fun i c =>
        let* recency_score :=
          read (fun h =>
            RelevanceScorer.calculate_recency_score strptime (now i) h c) in
        let* md := read (fun h => peek_metadata h c) in
        let* metadata := copy_dict md in
        store metadata (set_recency_score recency_score) ;;
        ret {| text := Some (get_text c); meta := Some metadata |})
        relevance_scored_chunks in
    let* authority_scored_chunks :=
      RankAggregator.compute_authority_scores recency_scored_chunks in
    let* final_scored_chunks :=
      RankAggregator.calculate_final_scores weights
                                            authority_scored_chunks in
    RankAggregator.select_top_chunks final_scored_chunks top_n.

End Library.

End ContentSelector.

(** ** [ranking_system.py] *)

Module RankingSystem.

Local Open Scope py_scope.

(** [self.metrics] *)
Record metrics : Set := {
  total_queries : Z;
  total_chunks_seen : Z;
  average_time : Q
}.

(** The engine: the configured [top_n] ([None] when the key is absent)
    and the running metrics. *)
Record system : Set := {
  config_top_n : option Z;
  sys_metrics : metrics
}.

(** The dict returned by [process_and_rank]. *)
Record ranked_result : Set := {
  ranked_chunks : list chunk;
  total_chunks : nat;
  processing_time : string
}.

(** Rounding to the nearest integer, ties to even. *)
Definition round_half_even (q : Q) : Z :=
  let f := Qfloor q in
  let r := (q - inject_Z f)%Q in
  match Qcompare r (1 # 2) with
  | Lt => f
  | Gt => (f + 1)%Z
  | Eq => if Z.even f then f else (f + 1)%Z
  end.

Definition digits (n : Z) : string :=
  DecimalString.NilZero.string_of_uint (N.to_uint (Z.to_N n)).

(** The format [f"{x:.2f}"]. *)
Definition format_2f (x : Q) : string :=
  let cents := round_half_even (Qabs x * 100) in
  let frac := (cents mod 100)%Z in
  (if Qlt_le_dec x 0 then "-" else "")
  +:+ digits (cents / 100) +:+ "."
  +:+ (if (frac <? 10)%Z then "0" else "") +:+ digits frac.

(** The metrics after one successful ranking of [n] chunks that took
    [elapsed_time] seconds. *)
Definition update_metrics (m : metrics) (n : nat) (elapsed_time : Q)
    : metrics :=
  {| total_queries := total_queries m + 1;
     total_chunks_seen := total_chunks_seen m + Z.of_nat n;
     average_time :=
       if Qeq_bool (average_time m) 0 then elapsed_time
       else (0.9 * average_time m + 0.1 * elapsed_time)%Q |}.

Section Library.

Variable strptime : string -> string -> option datetime.
Variable embed_content : string -> list Q.
Variable now : nat -> datetime.
Variable weights : RankAggregator.weights.

(** The two readings of [time.time()] in [rank_content]. *)
Variables start_time end_time : Q.

(** [RankingSystem.process_query] *)
Definition process_query (query_text : string) : query :=
  {| q_text := Some query_text;
     q_metadata := Some (Some (embed_content query_text)) |}.

(** [RankingSystem.rank_content] *)
Definition rank_content (self : system) (q : query_arg)
    (chunks : list chunk) (top_n : option Z)
    : M (system * list chunk) :=
  let q :=
    match q with
    | QText query_text => process_query query_text
    | QDict q => q
    end in
  let top_n :=
    match top_n with
    | Some n => n
    | None => default 10%Z (config_top_n self)
    end in
  try_except
    (let* ranked_chunks :=
       ContentSelector.select_content strptime embed_content now weights
                                      q chunks top_n in
     let elapsed_time := (end_time - start_time)%Q in
     ret ({| config_top_n := config_top_n self;
             sys_metrics := update_metrics (sys_metrics self)
                                           (length chunks) elapsed_time |},
          ranked_chunks))
    (fun _ => ret (self, [])).

(** [RankingSystem.process_and_rank] *)
Definition process_and_rank (self : system) (q : query_arg)
    (chunks : list chunk) (top_n : option Z)
    : M (system * ranked_result) :=
  let q :=
    match q with
    | QText query_text => QDict (process_query query_text)
    | QDict _ => q
    end in
  let* r := rank_content self q chunks top_n in
  let '(self', ranked_chunks) := r in
  ret (self',
       {| ranked_chunks := ranked_chunks;
          total_chunks := length ranked_chunks;
          processing_time :=
            format_2f (average_time (sys_metrics self')) +:+ "s" |}).

End Library.

End RankingSystem.

(** ** The settings of the engine ([RankingSystem._load_config]) *)

Module Config.

(** A value of the settings file. *)
Inductive setting : Set :=
| SStr (s : string)
| SInt (n : Z).

(** [default_config.items()], in the order of the dict literal. *)
Definition default_items : list (string * setting) :=
  [ ("model", SStr "all-MiniLM-L6-v2"); ("top_n", SInt 10) ].

Definition default_config : gmap string setting :=
  list_to_map default_items.

(** [if key not in ranking_config: ranking_config[key] = value] *)
Definition fill_default (ranking_config : gmap string setting)
    (item : string * setting) : gmap string setting :=
  match ranking_config !! fst item with
  | Some _ => ranking_config
  | None => <[fst item := snd item]> ranking_config
  end.

(** [RankingSystem._load_config]; the argument is the ["ranking"] section
    of the settings file, [None] when the file is missing or cannot be
    read. *)
Definition _load_config (file : option (gmap string setting))
    : gmap string setting :=
  match file with
  | Some ranking_config => fold_left fill_default default_items ranking_config
  | None => default_config
  end.

End Config.

(** ** The statements of the specification, and sample inputs *)

Module Spec.

(** The quality base of the specification: "300 words or more give 1.0,
    150 or more 0.8, 75 or more 0.6, otherwise 0.4". *)
Definition quality_base_at_least (word_count : nat) : Q :=
  if (300 <=? word_count)%nat then 1.0%Q
  else if (150 <=? word_count)%nat then 0.8%Q
  else if (75 <=? word_count)%nat then 0.6%Q
  else 0.4%Q.

(** The same scale with the bounds excluded: "more than 300 words". *)
Definition quality_base_above (word_count : nat) : Q :=
  if (300 <? word_count)%nat then 1.0%Q
  else if (150 <? word_count)%nat then 0.8%Q
  else if (75 <? word_count)%nat then 0.6%Q
  else 0.4%Q.

(** "+0.2 with three or more indicators, +0.1 with one or two". *)
Definition indicator_bonus (indicators : nat) : Q :=
  if (3 <=? indicators)%nat then 0.2%Q
  else if (1 <=? indicators)%nat then 0.1%Q
  else 0%Q.

(** The quality score as the specification words it. *)
Definition quality_as_specified (c : chunk) : Q :=
  let text := get_text c in
  Qmin 1 (quality_base_at_least (length (PyStr.split text))
          + indicator_bonus (RelevanceScorer.indicator_count text)).

(** A score lies in the unit interval. *)
Definition in_unit (x : Q) : Prop := (0 <= x /\ x <= 1)%Q.

(** An optional score lies in the unit interval when it is present. *)
Definition opt_in_unit (x : option Q) : Prop :=
  match x with
  | Some v => in_unit v
  | None => True
  end.

(** "All per-signal scores and the final score lie in [0,1]". *)
Definition scores_in_unit (md : metadata) : Prop :=
  opt_in_unit (relevance_score md) /\ opt_in_unit (quality_score md)
  /\ opt_in_unit (recency_score md) /\ opt_in_unit (authority_score md)
  /\ opt_in_unit (final_score md).

(** The dict holds a recency score that is not negative. *)
Definition has_recency (md : metadata) : Prop :=
  exists r, recency_score md = Some r /\ (0 <= r)%Q.

(** What the metadata of a ranked chunk holds: a recency score that is
    not negative, an authority score in [0,1], and a final score that is
    in [0,1] when the relevance, recency and quality scores are. *)
Definition scored (md : metadata) : Prop :=
  has_recency md
  /\ (exists a, authority_score md = Some a /\ in_unit a)
  /\ (exists f, final_score md = Some f
               /\ (opt_in_unit (relevance_score md) ->
                   opt_in_unit (recency_score md) ->
                   opt_in_unit (quality_score md) ->
                   in_unit f)).

(** The fusion formula of the specification. *)
Definition fusion (w : RankAggregator.weights)
    (relevance authority recency quality : Q) : Q :=
  ((relevance * RankAggregator.semantic w
    + authority * RankAggregator.authority w
    + recency * RankAggregator.recency w + quality * 0.1)
   / (RankAggregator.semantic w + RankAggregator.authority w
      + RankAggregator.recency w + 0.1))%Q.

(** "Missing individual scores default to 0.5 before fusion". *)
Definition score_or_neutral (x : option Q) : Q := default 0.5%Q x.


(** An embedding provider "fails or is unavailable": it raises, or it
    returns [None] or an empty vector. *)
Definition unavailable (r : result (option (list Q))) : Prop :=
  match r with
  | Ok (Some (_ :: _)) => False
  | _ => True
  end.

(** [domain] is a subdomain of the table entry [d]: it ends with a dot
    followed by [d]. *)
Definition subdomain_of (d domain : string) : Prop :=
  exists pre, domain = pre +:+ "." +:+ d.

(** The authority before the academic boost, for an extracted domain:
    the table value on an exact match; otherwise 0.9 times the value of
    the first table entry the domain is a subdomain of; otherwise 0.5. *)
Definition base_authority (domain : string) (base : Q) : Prop :=
  (exists v, In (domain, v) RankAggregator.domain_scores /\ base = v)
  \/ ((forall v, ~ In (domain, v) RankAggregator.domain_scores)
      /\ exists before d v after,
           RankAggregator.domain_scores = before ++ (d, v) :: after
           /\ subdomain_of d domain
           /\ (forall d' v', In (d', v') before -> ~ subdomain_of d' domain)
           /\ base = (v * 0.9)%Q)
  \/ ((forall v, ~ In (domain, v) RankAggregator.domain_scores)
      /\ (forall d v, In (d, v) RankAggregator.domain_scores ->
                      ~ subdomain_of d domain)
      /\ base = 0.5%Q).

(** The authority score of the specification for a metadata dict. *)
Definition authority_as_specified (md : metadata) (a : Q) : Prop :=
  exists base,
    base_authority (RankAggregator.extract_domain (default "" (url md))) base
    /\ (source_type md = Some "academic" -> (a == Qmin 1 (base * 1.1))%Q)
    /\ (source_type md <> Some "academic" -> a = base).

(** The query dict that [rank_content] hands to the selector: a raw
    string is wrapped and embedded first, a dict is passed as it is. *)
Definition as_query (embed_content : string -> list Q) (q : query_arg)
    : query :=
  match q with
  | QText query_text => RankingSystem.process_query embed_content query_text
  | QDict d => d
  end.

(** [bool(query)] for the argument of the public API. *)
Definition arg_truthy (q : query_arg) : bool :=
  match q with
  | QText EmptyString => false
  | QText _ => true
  | QDict d => query_truthy d
  end.

(** The [top_n] in force: the argument, or the configured default. *)
Definition effective_top_n (self : RankingSystem.system) (top_n : option Z)
    : Z :=
  match top_n with
  | Some n => n
  | None => default 10%Z (RankingSystem.config_top_n self)
  end.

(** In a descending order [y] may follow [x]: it does not rank above. *)
Definition not_above {A} (key : A -> Q) (x y : A) : Prop :=
  (key y <= key x)%Q.

(** The elements whose key equals [q], in their order in the list. *)
Definition with_key {A} (key : A -> Q) (q : Q) (l : list A) : list A :=
  List.filter (fun x => Qeq_bool (key x) q) l.

(** [k] rounds of doubling a vector. *)
Fixpoint doubled (k : nat) (e : list Q) : list Q :=
  match k with
  | O => e
  | S k' => doubled k' (e ++ e)
  end.

(** The fallback embedding of the specification: the sixteen digest
    bytes, mapped into [-1,1], tiled (seven doublings) and cut at [D]. *)
Definition fallback (md5_digest : string -> list Byte.byte)
    (text : string) : list Q :=
  take Embedder.D
       (doubled 7 (map Embedder.byte_to_float (md5_digest text))).

Section Dates.

Variable strptime : string -> string -> option datetime.

(** The date string [s] is read as [d]: some accepted format parses it
    to [d] and no format listed before it parses it. *)
Definition accepted (s : string) (d : datetime) : Prop :=
  exists before fmt after,
    RelevanceScorer.date_formats = (before ++ fmt :: after)%list
    /\ strptime s fmt = Some d
    /\ forall f, In f before -> strptime s f = None.

(** The publication date is absent or matches no accepted format. *)
Definition undated (md : metadata) : Prop :=
  publication_date md = None
  \/ exists s, publication_date md = Some (DateStr s)
               /\ forall fmt, In fmt RelevanceScorer.date_formats ->
                              strptime s fmt = None.

(** The publication date is the moment [d]: given as a [datetime], or
    as a non-empty string that is read as [d]. *)
Definition dated (md : metadata) (d : datetime) : Prop :=
  publication_date md = Some (DateObj d)
  \/ exists s, publication_date md = Some (DateStr s)
               /\ s <> "" /\ accepted s d.

End Dates.

End Spec.

(** The shape shared by the two annotating loops of the aggregator: for
    each chunk, fetch its metadata dict, compute a score from it, write the
    score into that same dict and emit a new chunk dict that refers to it. *)

Module Stage.

Local Open Scope py_scope.

Definition annotate (score : metadata -> result Q)
    (set : Q -> metadata -> metadata) (chunks : list chunk)
    : M (list chunk) :=
  for_each (fun c =>
    let* metadata := chunk_metadata c in
    let* md := load metadata in
    let* v := lift (score md) in
    store metadata (set v) ;;
    ret {| text := Some (get_text c); meta := Some metadata |}) chunks.

(** Every reference held by a chunk of the list points into the store. *)
Definition refs_valid (h : heap) (chunks : list chunk) : Prop :=
  forall c l, In c chunks -> meta c = Some l -> l ∈ dom h.

(** What the loop does for one chunk [c] of its input, seen from the
    stores before ([h]) and after ([h']) the whole loop: the emitted chunk
    [c'] carries the text of [c] and refers to a dict that holds the
    metadata of [c] with the score written into it; that dict is the one
    [c] refers to, or a new one when [c] has no metadata. *)
Definition annotated (score : metadata -> result Q)
    (set : Q -> metadata -> metadata) (h h' : heap) (c c' : chunk) : Prop :=
  text c' = Some (get_text c)
  /\ exists l v,
       meta c' = Some l
       /\ score (peek_metadata h c) = Ok v
       /\ h' !!! l = set v (peek_metadata h c)
       /\ (meta c = Some l \/ (meta c = None /\ l ∉ dom h)).

(** How the loop may change the dicts that existed before it: a dict is
    left alone or receives its own score. *)
Definition evolves (score : metadata -> result Q)
    (set : Q -> metadata -> metadata) (h h' : heap) : Prop :=
  dom h ⊆ dom h'
  /\ forall l, l ∈ dom h ->
       h' !!! l = h !!! l
       \/ exists v, score (h !!! l) = Ok v /\ h' !!! l = set v (h !!! l).

End Stage.

Module Samples.

(** The answers of [datetime.strptime] on the dates used below. *)
Definition strptime (date_string format : string) : option datetime :=
  if String.eqb format "%Y-%m-%d" then
    if String.eqb date_string "2023-01-15"
    then Some {| dt_ordinal := 738535; dt_micros := 0 |}
    else if String.eqb date_string "2016-03-01"
    then Some {| dt_ordinal := 736024; dt_micros := 0 |}
    else if String.eqb date_string "2030-01-01"
    then Some {| dt_ordinal := 741078; dt_micros := 0 |}
    else None
  else None.

(** Noon of 2024-06-01. *)
Definition noon_2024_06_01 : datetime :=
  {| dt_ordinal := 739038; dt_micros := 43200000000 |}.

(** A digest function with a constant answer of sixteen bytes. *)
Definition md5_digest (_ : string) : list Byte.byte :=
  repeat Byte.x80 8 ++ repeat Byte.xff 8.

(** A remote provider that always raises and a local model that is not
    installed. *)
Definition api_embedding (_ : string) : result (option (list Q)) :=
  Raise ProviderError.
Definition local_embedding (_ : string) : result (option (list Q)) :=
  Ok None.

(** An embedder whose providers always answer with one fixed vector. *)
Definition embed_content (_ : string) : list Q := [1%Q; 0%Q].

(** ["a " * 300]: three hundred one-letter words. *)
Definition three_hundred_words : chunk :=
  {| text := Some (PyStr.repeat_str "a " 300); meta := None |}.

Definition empty_dict : metadata := empty_metadata.

Definition with_date (d : pubdate) : metadata :=
  {| url := None; source_type := None; publication_date := Some d;
     embedding := None; relevance_score := None; quality_score := None;
     recency_score := None; authority_score := None; final_score := None |}.

Definition with_url (u : string) (source : option string) : metadata :=
  {| url := Some u; source_type := source; publication_date := None;
     embedding := None; relevance_score := None; quality_score := None;
     recency_score := None; authority_score := None; final_score := None |}.

(** A store with one metadata dict, at reference 1. *)
Definition one_dict (md : metadata) : heap := {[ 1%positive := md ]}.

(** The chunk that owns the dict at reference 1. *)
Definition chunk_1 : chunk := {| text := Some "a"; meta := Some 1%positive |}.

Definition with_scores (relevance authority recency : Q) : metadata :=
  {| url := None; source_type := None; publication_date := None;
     embedding := None; relevance_score := Some relevance;
     quality_score := None; recency_score := Some recency;
     authority_score := Some authority; final_score := None |}.

(** A chunk dict without the key ["metadata"]. *)
Definition bare_chunk : chunk := {| text := Some "b"; meta := None |}.

Definition with_embedding (e : list Q) : metadata :=
  {| url := None; source_type := None; publication_date := None;
     embedding := Some e; relevance_score := None; quality_score := None;
     recency_score := None; authority_score := None; final_score := None |}.

(** A query dict that carries its embedding. *)
Definition embedded_query (e : list Q) : query :=
  {| q_text := Some "quantum computing"; q_metadata := Some (Some e) |}.

(** An engine that has not ranked anything yet. *)
Definition fresh_system : RankingSystem.system :=
  {| RankingSystem.config_top_n := Some 10%Z;
     RankingSystem.sys_metrics :=
       {| RankingSystem.total_queries := 0;
          RankingSystem.total_chunks_seen := 0;
          RankingSystem.average_time := 0 |} |}.

(** An engine whose average time stands at 2 seconds. *)
Definition warm_system : RankingSystem.system :=
  {| RankingSystem.config_top_n := Some 10%Z;
     RankingSystem.sys_metrics :=
       {| RankingSystem.total_queries := 5;
          RankingSystem.total_chunks_seen := 40;
          RankingSystem.average_time := 2 |} |}.

(** A second chunk, on the dict at reference 2. *)
Definition chunk_2 : chunk := {| text := Some "b"; meta := Some 2%positive |}.

Definition two_dicts (md1 md2 : metadata) : heap :=
  <[ 2%positive := md2 ]> (one_dict md1).

(** A clock that stands at noon of 2024-06-01. *)
Definition now (_ : nat) : datetime := noon_2024_06_01.

End Samples.

(** ** Further statements about the code *)

Module Props.

(** Two outcomes agree: the same exception, or values equal as
    rationals. *)
Definition same_outcome (r1 r2 : result Q) : Prop :=
  match r1, r2 with
  | Ok x, Ok y => (x == y)%Q
  | Raise e1, Raise e2 => e1 = e2
  | _, _ => False
  end.

(** Every component of the vector is zero. *)
Definition all_zero (v : list Q) : Prop := Forall (fun x => (x == 0)%Q) v.

(** The fields of a metadata dict that the ranking code reads as
    provenance or writes only into its own copies: everything but
    [embedding], [relevance_score] and [quality_score]. *)
Definition same_provenance (md md' : metadata) : Prop :=
  url md' = url md
  /\ source_type md' = source_type md
  /\ publication_date md' = publication_date md
  /\ recency_score md' = recency_score md
  /\ authority_score md' = authority_score md
  /\ final_score md' = final_score md.

(** The configured weights before normalisation. *)
Definition configured (rc : RankAggregator.ranking_config)
    : RankAggregator.weights :=
  {| RankAggregator.semantic := default 0.5%Q (RankAggregator.weight_semantic rc);
     RankAggregator.authority := default 0.3%Q (RankAggregator.weight_authority rc);
     RankAggregator.recency := default 0.2%Q (RankAggregator.weight_recency rc) |}.

(** The sum of three weights. *)
Definition total (w : RankAggregator.weights) : Q :=
  (RankAggregator.semantic w + RankAggregator.authority w
   + RankAggregator.recency w)%Q.

(** The length of the slice [xs[:n]] of a list of [len] elements. *)
Definition slice_length (n : Z) (len : nat) : nat :=
  if (n <? 0)%Z then Z.to_nat (Z.of_nat len + n)
  else Nat.min (Z.to_nat n) len.

(** The character [c] does not occur in [s]. *)
Fixpoint free_of (c : ascii) (s : string) : Prop :=
  match s with
  | EmptyString => True
  | String a s' => a <> c /\ free_of c s'
  end.

End Props.

Module MoreSamples.

(** Settings with one weight given. *)
Definition only_semantic : RankAggregator.ranking_config :=
  {| RankAggregator.weight_semantic := Some 2%Q;
     RankAggregator.weight_authority := None;
     RankAggregator.weight_recency := None |}.

(** Weights that sum to -0.1. *)
Definition cancelling_weights : RankAggregator.weights :=
  {| RankAggregator.semantic := (-0.1)%Q; RankAggregator.authority := 0;
     RankAggregator.recency := 0 |}.

(** A store with three dicts that hold final scores 0.2, 0.9 and 0.5. *)
Definition with_final (f : Q) : metadata :=
  {| url := None; source_type := None; publication_date := None;
     embedding := None; relevance_score := None; quality_score := None;
     recency_score := None; authority_score := None; final_score := Some f |}.

Definition three_ranked : heap :=
  <[ 3%positive := with_final 0.5 ]>
    (Samples.two_dicts (with_final 0.2) (with_final 0.9)).

Definition chunk_3 : chunk := {| text := Some "c"; meta := Some 3%positive |}.

End MoreSamples.

(** * Properties *)

(** ** Python strings *)

Module PyStrFacts.

Import PyStr.

Lemma startswith_spec p s :
  startswith p s = true <-> exists post, s = p +:+ post.
Proof.
  revert s. induction p as [|a p IH]; intros s; simpl.
  - split; [intros _; exists s; reflexivity | reflexivity].
  - destruct s as [|b s].
    + split; [discriminate | intros [post H]; discriminate].
    + destruct (Ascii.eqb_spec a b) as [->|Hne].
      * rewrite IH. split; intros [post H]; exists post.
        -- now rewrite H.
        -- now inversion H.
      * split; [discriminate | intros [post H]; inversion H; congruence].
Qed.

Lemma contains_spec sub s :
  contains sub s = true <-> exists pre post, s = pre +:+ sub +:+ post.
Proof.
  induction s as [|c s IH]; simpl.
  - rewrite orb_false_r, startswith_spec. split.
    + intros [post H]. exists "", post. exact H.
    + intros [pre [post H]]. destruct pre; [|discriminate].
      exists post. exact H.
  - rewrite orb_true_iff, startswith_spec, IH. split.
    + intros [[post H]|[pre [post H]]].
      * exists "", post. exact H.
      * exists (String c pre), post. simpl. now rewrite H.
    + intros [pre [post H]]. destruct pre as [|c' pre]; simpl in H.
      * left. exists post. exact H.
      * right. inversion H. exists pre, post. reflexivity.
Qed.

Lemma endswith_spec suf s :
  endswith suf s = true <-> exists pre, s = pre +:+ suf.
Proof.
  induction s as [|c s IH]; simpl.
  - rewrite orb_false_r, String.eqb_eq. split.
    + intros ->. exists "". reflexivity.
    + intros [pre H]. destruct pre; simpl in H; [now symmetry|discriminate].
  - rewrite orb_true_iff, String.eqb_eq, IH. split.
    + intros [->|[pre ->]].
      * exists "". reflexivity.
      * exists (String c pre). reflexivity.
    + intros [pre H]. destruct pre as [|c' pre]; simpl in H.
      * left. now symmetry.
      * right. inversion H. exists pre. reflexivity.
Qed.

Example split_on_whitespace :
  split "  hello  world foo " = ["hello"; "world"; "foo"].
Proof. reflexivity. Qed.

Example lower_mixed_case : lower "Results AND Findings" = "results and findings".
Proof. reflexivity. Qed.

End PyStrFacts.

(** ** Content quality *)

Module QualityFacts.

Import RelevanceScorer.

Lemma three_hundred_words_count :
  length (PyStr.split (get_text Samples.three_hundred_words)) = 300%nat.
Proof. vm_compute. reflexivity. Qed.

(** C7, as the specification words it, fails on a text of exactly 300
    words without indicator words: the code scores it 0.8, the
    specification 1.0. *)
Lemma quality_at_300_words_differs :
  ~ (assess_content_quality Samples.three_hundred_words
     == Spec.quality_as_specified Samples.three_hundred_words)%Q.
Proof. vm_compute. discriminate. Qed.

(** C7, amended: the quality score is the base for the word count, with
    the bounds 300, 150 and 75 excluded, plus 0.2 for three or more
    indicator words or 0.1 for one or two, capped at 1.0. *)
Theorem quality_score_formula (c : chunk) :
  (assess_content_quality c
   == Qmin 1 (Spec.quality_base_above (length (PyStr.split (get_text c)))
              + Spec.indicator_bonus (indicator_count (get_text c))))%Q.
Proof.
  unfold assess_content_quality, Spec.quality_base_above,
    Spec.indicator_bonus.
  generalize (length (PyStr.split (get_text c))) as wc.
  generalize (indicator_count (get_text c)) as n. intros n wc.
  destruct (300 <? wc)%nat, (150 <? wc)%nat, (75 <? wc)%nat,
    (3 <=? n)%nat, (1 <=? n)%nat; reflexivity.
Qed.

End QualityFacts.

(** ** Recency *)

Module RecencyFacts.

Import RelevanceScorer.

Section Parsing.

Variable strptime : string -> string -> option datetime.

Lemma parse_date_none s formats :
  (forall fmt, In fmt formats -> strptime s fmt = None) ->
  parse_date strptime s formats = None.
Proof.
  induction formats as [|fmt formats IH]; intros Hnone; simpl.
  - reflexivity.
  - rewrite (Hnone fmt) by (left; reflexivity).
    apply IH. intros f Hf. apply Hnone. right. exact Hf.
Qed.

Lemma parse_date_first s d before fmt after :
  strptime s fmt = Some d ->
  (forall f, In f before -> strptime s f = None) ->
  parse_date strptime s (before ++ fmt :: after)%list = Some d.
Proof.
  intros Hfmt. induction before as [|f before IH]; intros Hnone; simpl.
  - rewrite Hfmt. reflexivity.
  - rewrite (Hnone f) by (left; reflexivity).
    apply IH. intros g Hg. apply Hnone. right. exact Hg.
Qed.

Lemma parse_date_accepted s d :
  Spec.accepted strptime s d ->
  parse_date strptime s date_formats = Some d.
Proof.
  intros (before & fmt & after & Hsplit & Hfmt & Hnone).
  rewrite Hsplit. apply parse_date_first; assumption.
Qed.

End Parsing.

Lemma recency_of_old now d :
  (1825 <= timedelta_days now d)%Z -> (recency_of now d == 0)%Q.
Proof.
  intros Hold. unfold recency_of.
  apply Q.max_l.
  assert (H : (inject_Z 1825 <= inject_Z (timedelta_days now d))%Q)
    by (rewrite <- Zle_Qle; exact Hold).
  change (inject_Z 1825) with 1825%Q in H.
  unfold Qdiv. change (/ 365)%Q with (1 # 365)%Q.
  change (/ 5)%Q with (1 # 5)%Q. lra.
Qed.

(** C8: the recency score is exactly 0.5 when the publication date is
    absent or matches none of the accepted formats; when the date is read
    as a moment [d] it is [max(0, 1 - years_old / 5)] with [years_old] the
    age in days over 365, and so it is 0 from five years of age on. *)
Theorem recency_score_cases strptime now (h : heap) (c : chunk) :
  (Spec.undated strptime (peek_metadata h c) ->
     calculate_recency_score strptime now h c = 0.5%Q)
  /\ (forall d, Spec.dated strptime (peek_metadata h c) d ->
        (calculate_recency_score strptime now h c
         == Qmax 0 (1 - (inject_Z (timedelta_days now d) / 365) / 5))%Q
        /\ ((1825 <= timedelta_days now d)%Z ->
            (calculate_recency_score strptime now h c == 0)%Q)).
Proof.
  unfold calculate_recency_score.
  generalize (peek_metadata h c) as md. intros md. split.
  - intros [Habsent|(s & Hs & Hnone)].
    + rewrite Habsent. reflexivity.
    + rewrite Hs. destruct s as [|a s]; [reflexivity|].
      rewrite (parse_date_none strptime _ _ Hnone). reflexivity.
  - intros d Hd.
    assert (Hscore :
      match publication_date md with
      | None => 0.5%Q
      | Some (DateStr "") => 0.5%Q
      | Some (DateObj pub_date) => recency_of now pub_date
      | Some (DateStr date_str) =>
          match parse_date strptime date_str date_formats with
          | None => 0.5%Q
          | Some pub_date => recency_of now pub_date
          end
      end = recency_of now d).
    { destruct Hd as [Hobj|(s & Hs & Hne & Hacc)].
      - rewrite Hobj. reflexivity.
      - rewrite Hs. destruct s as [|a s]; [contradiction|].
        rewrite (parse_date_accepted strptime _ _ Hacc). reflexivity. }
    rewrite Hscore. split.
    + reflexivity.
    + apply recency_of_old.
Qed.

(** A chunk dated 2016-03-01, scored at noon of 2024-06-01, is more than
    five years old and scores 0; a chunk without a date scores 0.5. *)
Lemma recency_score_cases_witness :
  calculate_recency_score Samples.strptime Samples.noon_2024_06_01
    (Samples.one_dict Samples.empty_dict) Samples.chunk_1 = 0.5%Q
  /\ (calculate_recency_score Samples.strptime Samples.noon_2024_06_01
        (Samples.one_dict (Samples.with_date (DateStr "2016-03-01")))
        Samples.chunk_1 == 0)%Q.
Proof.
  split.
  - apply (proj1 (recency_score_cases Samples.strptime
                    Samples.noon_2024_06_01
                    (Samples.one_dict Samples.empty_dict) Samples.chunk_1)).
    left. reflexivity.
  - apply (proj2 (recency_score_cases Samples.strptime
                    Samples.noon_2024_06_01
                    (Samples.one_dict
                       (Samples.with_date (DateStr "2016-03-01")))
                    Samples.chunk_1)
             {| dt_ordinal := 736024; dt_micros := 0 |}).
    + right. exists "2016-03-01". split; [reflexivity|].
      split; [discriminate|].
      exists [], "%Y-%m-%d", ["%Y/%m/%d"; "%Y-%m-%dT%H:%M:%S"].
      split; [reflexivity|]. split; [reflexivity|].
      intros f [].
    + vm_compute. discriminate.
Defined.

End RecencyFacts.

(** ** The embedder *)

Module EmbedderFacts.

Import Embedder.

Import Spec.

Lemma doubled_length k e : length (doubled k e) = (length e * 2 ^ k)%nat.
Proof.
  revert e. induction k as [|k IH]; intros e; simpl.
  - lia.
  - rewrite IH, length_app. lia.
Qed.

Lemma lookup_twice (e : list Q) i :
  (0 < length e)%nat -> (i < 2 * length e)%nat ->
  (e ++ e) !! i = e !! (i mod length e)%nat.
Proof.
  intros Hpos Hi. destruct (Nat.lt_ge_cases i (length e)) as [Hlt|Hge].
  - rewrite lookup_app_l by exact Hlt.
    now rewrite Nat.mod_small.
  - rewrite lookup_app_r by exact Hge. f_equal.
    replace i with ((i - length e) + 1 * length e)%nat at 2 by lia.
    rewrite Nat.Div0.mod_add. rewrite Nat.mod_small; lia.
Qed.

Lemma doubled_lookup k (e : list Q) i :
  (0 < length e)%nat -> (i < length e * 2 ^ k)%nat ->
  doubled k e !! i = e !! (i mod length e)%nat.
Proof.
  revert e i. induction k as [|k IH]; intros e i Hpos Hi; simpl in *.
  - now rewrite Nat.mod_small by lia.
  - rewrite IH by (rewrite length_app; lia).
    rewrite length_app.
    rewrite lookup_twice.
    + f_equal. replace (length e + length e)%nat with (length e * 2)%nat by lia.
      rewrite Nat.Div0.mod_mul_r.
      rewrite (Nat.mul_comm (length e)), Nat.Div0.mod_add.
      apply Nat.Div0.mod_mod.
    + exact Hpos.
    + pose proof (Nat.mod_upper_bound i (length e + length e)). lia.
Qed.

(** The loop ends after [k] rounds when the length first reaches [D]
    then, and returns the [k]-fold doubling. *)
Lemma tile_doubled k : forall fuel e,
  (k <= fuel)%nat ->
  (forall j, (j < k)%nat -> (length e * 2 ^ j < D)%nat) ->
  (D <= length e * 2 ^ k)%nat ->
  tile fuel e = Some (doubled k e).
Proof.
  induction k as [|k IH]; intros fuel e Hfuel Hbelow Hreach.
  - simpl in Hreach. destruct fuel; simpl;
      (destruct (Nat.ltb_spec (length e) D); [lia|reflexivity]).
  - destruct fuel as [|fuel]; [lia|]. simpl.
    specialize (Hbelow 0%nat ltac:(lia)) as H0. simpl in H0.
    destruct (Nat.ltb_spec (length e) D); [|lia].
    apply IH.
    + lia.
    + intros j Hj. rewrite length_app.
      specialize (Hbelow (S j) ltac:(lia)). simpl in Hbelow. lia.
    + rewrite length_app. simpl in Hreach. lia.
Qed.

Lemma byte_to_float_range b : (-1 <= byte_to_float b /\ byte_to_float b <= 1)%Q.
Proof. destruct b; split; vm_compute; discriminate. Qed.

Lemma attempt_unavailable r : Spec.unavailable r -> attempt r = None.
Proof.
  destruct r as [[[|x v]|]|e]; simpl; intros H;
    [reflexivity|contradiction|reflexivity|reflexivity].
Qed.

Lemma attempt_truthy r e : attempt r = Some e -> truthy (Some e) = true.
Proof.
  destruct r as [[[|x v]|]|ex]; simpl; intros H; inversion H; reflexivity.
Qed.

Section Providers.

Variable md5_digest : string -> list Byte.byte.
Variable api_embedding : string -> result (option (list Q)).
Variable local_embedding : string -> result (option (list Q)).

(** An MD5 digest has sixteen bytes. *)
Hypothesis md5_length : forall text, length (md5_digest text) = 16%nat.

Local Abbreviation fallback := (Spec.fallback md5_digest).

Lemma mock_embedding_value text :
  _mock_embedding md5_digest text = Some (fallback text).
Proof.
  unfold _mock_embedding, fallback.
  rewrite (tile_doubled 7).
  - reflexivity.
  - lia.
  - intros j Hj. rewrite length_map, md5_length. unfold D.
    assert (Hpow : (2 ^ j <= 2 ^ 6)%nat) by (apply Nat.pow_le_mono_r; lia).
    change (2 ^ 6)%nat with 64%nat in Hpow. lia.
  - rewrite length_map, md5_length. unfold D. simpl. lia.
Qed.

Lemma fallback_length text : length (fallback text) = D.
Proof.
  unfold fallback.
  rewrite length_take, doubled_length, length_map, md5_length.
  unfold D. simpl. lia.
Qed.

Lemma fallback_lookup text i :
  (i < D)%nat ->
  fallback text !! i = byte_to_float <$> md5_digest text !! (i mod 16)%nat.
Proof.
  intros Hi. unfold fallback.
  rewrite lookup_take_lt by exact Hi.
  rewrite doubled_lookup.
  - rewrite length_map, md5_length. apply list_lookup_fmap.
  - rewrite length_map, md5_length. lia.
  - rewrite length_map, md5_length. unfold D in Hi. simpl. lia.
Qed.

Lemma fallback_range text x :
  In x (fallback text) -> (-1 <= x /\ x <= 1)%Q.
Proof.
  intros Hx. apply list_elem_of_In, list_elem_of_lookup in Hx.
  destruct Hx as [i Hi].
  assert (Hlt : (i < D)%nat).
  { rewrite <- (fallback_length text).
    apply lookup_lt_is_Some. eauto. }
  rewrite (fallback_lookup _ _ Hlt) in Hi.
  destruct (md5_digest text !! (i mod 16)%nat) as [b|]; simpl in Hi;
    [|discriminate].
  injection Hi as <-. apply byte_to_float_range.
Qed.

End Providers.



End EmbedderFacts.

(** ** The annotating loops and the store *)

Module StageFacts.

Import Stage.

Lemma bind_ok {A B} (m : M A) (k : A -> M B) h h' a :
  m h = (h', Ok a) -> bind m k h = k a h'.
Proof. intros H. unfold bind. rewrite H. reflexivity. Qed.

Lemma bind_raise {A B} (m : M A) (k : A -> M B) h h' e :
  m h = (h', Raise e) -> bind m k h = (h', Raise e).
Proof. intros H. unfold bind. rewrite H. reflexivity. Qed.

Lemma refs_valid_tail h c chunks :
  refs_valid h (c :: chunks) -> refs_valid h chunks.
Proof. intros H c' l Hin. apply H. right. exact Hin. Qed.

Lemma refs_valid_mono (h h' : heap) chunks :
  dom h ⊆ dom h' -> refs_valid h chunks -> refs_valid h' chunks.
Proof. intros Hsub H c l Hin Hl. apply Hsub. eapply H; eassumption. Qed.

Lemma Forall2_impl_In {A B} (P R : A -> B -> Prop) xs ys :
  Forall2 P xs ys ->
  (forall x y, In x xs -> P x y -> R x y) ->
  Forall2 R xs ys.
Proof.
  induction 1 as [|x y xs ys Hxy Hrest IH]; intros Himpl; constructor.
  - apply Himpl; [left; reflexivity|exact Hxy].
  - apply IH. intros x' y' Hin. apply Himpl. right. exact Hin.
Qed.

Section Loop.

Variable score : metadata -> result Q.
Variable set : Q -> metadata -> metadata.

(** The score does not read the field it is written to, writing twice
    is writing once, and the score is defined on every dict. *)
Hypothesis score_set : forall v md, score (set v md) = score md.
Hypothesis set_set : forall v md, set v (set v md) = set v md.
Hypothesis score_total : forall md, exists v, score md = Ok v.

(** One round of the loop. *)
Lemma annotate_step c (h : heap) :
  (forall l, meta c = Some l -> l ∈ dom h) ->
  exists l v,
    score (peek_metadata h c) = Ok v
    /\ (meta c = Some l \/ (meta c = None /\ l ∉ dom h))
    /\ bind (chunk_metadata c) (fun metadata =>
       bind (load metadata) (fun md =>
       bind (lift (score md)) (fun v =>
       bind (store metadata (set v)) (fun _ =>
       ret {| text := Some (get_text c); meta := Some metadata |})))) h
       = (<[l := set v (peek_metadata h c)]> h,
          Ok {| text := Some (get_text c); meta := Some l |}).
Proof.
  intros Hvalid. destruct (score_total (peek_metadata h c)) as [v Hv].
  unfold peek_metadata in *. destruct (meta c) as [l|] eqn:Hmeta.
  - exists l, v. split; [exact Hv|]. split; [left; reflexivity|].
    unfold bind, chunk_metadata, load, lift, store, ret.
    rewrite Hmeta, Hv. reflexivity.
  - exists (fresh (dom h)), v. split; [exact Hv|].
    split; [right; split; [reflexivity|apply is_fresh]|].
    unfold bind, chunk_metadata, load, lift, store, ret.
    rewrite Hmeta. rewrite lookup_total_insert_eq, Hv.
    rewrite insert_insert_eq. reflexivity.
Qed.

Lemma evolves_after_write (h h' : heap) l v md :
  (l ∈ dom h -> md = h !!! l) ->
  score md = Ok v ->
  evolves score set (<[l := set v md]> h) h' ->
  evolves score set h h' /\ h' !!! l = set v md.
Proof.
  intros Hmd Hv [Hdom Hcells].
  assert (Hl : h' !!! l = set v md).
  { destruct (Hcells l) as [Hsame|(v' & Hv' & Hset)].
    - rewrite dom_insert_L. set_solver.
    - rewrite Hsame. apply lookup_total_insert_eq.
    - rewrite lookup_total_insert_eq in Hv', Hset.
      rewrite score_set in Hv'. rewrite Hv in Hv'. injection Hv' as <-.
      rewrite Hset. apply set_set. }
  split; [|exact Hl]. split.
  - rewrite dom_insert_L in Hdom. set_solver.
  - intros l0 Hl0. destruct (decide (l0 = l)) as [->|Hne].
    + right. exists v. rewrite <- (Hmd Hl0). split; assumption.
    + destruct (Hcells l0) as [Hsame|(v' & Hv' & Hset)].
      * rewrite dom_insert_L. set_solver.
      * left. rewrite Hsame. now apply lookup_total_insert_ne.
      * right. exists v'.
        rewrite lookup_total_insert_ne in Hv', Hset by congruence.
        split; assumption.
Qed.

(** The metadata of a later chunk, read after a write, scores as it did
    before the write and is what the write made of it. *)
Lemma annotated_after_write (h h' : heap) l v md c c' :
  (l ∈ dom h -> md = h !!! l) ->
  score md = Ok v ->
  (forall l0, meta c = Some l0 -> l0 ∈ dom h) ->
  annotated score set (<[l := set v md]> h) h' c c' ->
  annotated score set h h' c c'.
Proof.
  intros Hmd Hv Hvalid (Htext & l0 & v0 & Hmeta & Hscore & Hcell & Hwhere).
  split; [exact Htext|]. exists l0, v0. split; [exact Hmeta|].
  assert (Hwhere' : meta c = Some l0 \/ (meta c = None /\ l0 ∉ dom h)).
  { destruct Hwhere as [Hsome|[Hnone Hfresh]]; [left; exact Hsome|].
    right. split; [exact Hnone|]. rewrite dom_insert_L in Hfresh.
    set_solver. }
  unfold peek_metadata in *. destruct (meta c) as [lc|] eqn:Hc.
  - destruct (decide (lc = l)) as [->|Hne].
    + rewrite lookup_total_insert_eq in Hscore, Hcell.
      rewrite score_set in Hscore.
      rewrite Hv in Hscore. injection Hscore as <-.
      rewrite set_set in Hcell.
      rewrite <- (Hmd (Hvalid l eq_refl)).
      repeat split; assumption.
    + rewrite lookup_total_insert_ne in Hscore, Hcell by congruence.
      repeat split; assumption.
  - repeat split; assumption.
Qed.

(** The loop runs to its end, and does to every chunk what [annotated]
    says. *)
Lemma annotate_spec chunks : forall h : heap,
  refs_valid h chunks ->
  exists out h',
    annotate score set chunks h = (h', Ok out)
    /\ evolves score set h h'
    /\ Forall2 (annotated score set h h') chunks out.
Proof.
  unfold annotate, for_each.
  generalize 0%nat as start.
  induction chunks as [|c chunks IH]; intros start h Hvalid.
  - exists [], h. split; [reflexivity|]. split; [|constructor].
    split; [reflexivity|]. intros l _. left. reflexivity.
  - destruct (annotate_step c h) as (l & v & Hv & Hwhere & Hstep).
    { intros l Hl. apply (Hvalid c l); [left; reflexivity|exact Hl]. }
    set (h2 := <[l := set v (peek_metadata h c)]> h) in *.
    assert (Hmd : l ∈ dom h -> peek_metadata h c = h !!! l).
    { intros Hin. unfold peek_metadata.
      destruct Hwhere as [Hsome|[_ Hfresh]]; [|contradiction].
      rewrite Hsome. reflexivity. }
    destruct (IH (S start) h2) as (out & h' & Hrun & Hev & Hall).
    { apply (refs_valid_mono h).
      - unfold h2. rewrite dom_insert_L. apply union_subseteq_r.
      - eapply refs_valid_tail. exact Hvalid. }
    destruct (evolves_after_write h h' l v _ Hmd Hv Hev) as [Hev' Hcell].
    exists ({| text := Some (get_text c); meta := Some l |} :: out), h'.
    split; [|split; [exact Hev'|]].
    + simpl. rewrite (bind_ok _ _ _ _ _ Hstep).
      rewrite (bind_ok _ _ _ _ _ Hrun). reflexivity.
    + constructor.
      * split; [reflexivity|]. exists l, v. repeat split; assumption.
      * apply (Forall2_impl_In _ _ _ _ Hall). intros c0 c0' Hin H0.
        apply (annotated_after_write h h' l v _ c0 c0' Hmd Hv); [|exact H0].
        intros l0 Hl0. apply (Hvalid c0 l0); [right; exact Hin|exact Hl0].
Qed.

End Loop.

End StageFacts.

(** ** Final score fusion *)

Module FusionFacts.

Import RankAggregator.

(** The score computed by one round of [calculate_final_scores]. *)
Local Abbreviation final_of w :=
  (fun md => py_div (weighted_sum w md) (weights_sum w + 0.1)).

Lemma calculate_final_scores_annotate w chunks :
  calculate_final_scores w chunks
  = Stage.annotate (final_of w) set_final_score chunks.
Proof. destruct chunks; reflexivity. Qed.

Lemma py_div_ok a b : ~ (b == 0)%Q -> py_div a b = Ok (a / b)%Q.
Proof.
  intros Hb. unfold py_div.
  destruct (Qeq_bool b 0) eqn:E; [|reflexivity].
  apply Qeq_bool_iff in E. contradiction.
Qed.

Lemma weights_sum_eq w :
  (weights_sum w + 0.1 == semantic w + authority w + recency w + 0.1)%Q.
Proof. unfold weights_sum. ring. Qed.

(** Weights loaded from non-negative settings sum to 1 when some setting
    is positive, and in every case leave the denominator of the fusion
    positive. *)
Lemma _load_weights_normalised config :
  (forall rc, config = Some rc ->
     (0 <= default 0.5 (weight_semantic rc))%Q
     /\ (0 <= default 0.3 (weight_authority rc))%Q
     /\ (0 <= default 0.2 (weight_recency rc))%Q) ->
  let w := _load_weights config in
  (0 <= semantic w /\ 0 <= authority w /\ 0 <= recency w)%Q
  /\ (0 < semantic w + authority w + recency w + 0.1)%Q
  /\ (forall rc, config = Some rc ->
        (0 < default 0.5 (weight_semantic rc) + default 0.3 (weight_authority rc)
             + default 0.2 (weight_recency rc))%Q ->
        (semantic w + authority w + recency w == 1)%Q).
Proof.
  intros Hnonneg w. subst w. destruct config as [rc|]; simpl.
  - destruct (Hnonneg rc eq_refl) as (Hs & Ha & Hr).
    set (s := default 0.5%Q (weight_semantic rc)) in *.
    set (a := default 0.3%Q (weight_authority rc)) in *.
    set (r := default 0.2%Q (weight_recency rc)) in *.
    unfold weights_sum; simpl. fold s a r.
    destruct (Qlt_le_dec 0 (0 + s + a + r)) as [Hpos|Hzero]; simpl.
    + assert (Hs' : (0 <= s / (0 + s + a + r))%Q)
        by (apply Qle_shift_div_l; [exact Hpos|lra]).
      assert (Ha' : (0 <= a / (0 + s + a + r))%Q)
        by (apply Qle_shift_div_l; [exact Hpos|lra]).
      assert (Hr' : (0 <= r / (0 + s + a + r))%Q)
        by (apply Qle_shift_div_l; [exact Hpos|lra]).
      split; [repeat split; assumption|]. split; [lra|].
      intros rc' [= <-] _. field. lra.
    + split; [repeat split; assumption|]. split; [lra|].
      intros rc' [= <-] Hpos. fold s a r in Hpos. lra.
  - split; [repeat split; vm_compute; discriminate|].
    split; [vm_compute; reflexivity|]. intros rc [=].
Qed.

(** When the weights sum to -0.1 the division raises at the first chunk
    and no chunk is emitted. *)
Lemma calculate_final_scores_zero_denominator w (h : heap) c chunks :
  (weights_sum w + 0.1 == 0)%Q ->
  exists h',
    calculate_final_scores w (c :: chunks) h = (h', Raise ZeroDivisionError).
Proof.
  intros Hzero. apply Qeq_bool_iff in Hzero.
  unfold calculate_final_scores, for_each. simpl.
  unfold bind, chunk_metadata, load, lift, py_div. rewrite Hzero.
  destruct (meta c); eexists; reflexivity.
Qed.



End FusionFacts.

(** ** Source authority *)

Module AuthorityFacts.

Import RankAggregator.

Lemma table_lookup_some domain items v :
  table_lookup domain items = Some v -> In (domain, v) items.
Proof.
  induction items as [|[d s] items IH]; simpl; [discriminate|].
  destruct (String.eqb_spec domain d) as [->|Hne].
  - intros [= ->]. left. reflexivity.
  - intros H. right. apply IH. exact H.
Qed.

Lemma table_lookup_none domain items :
  table_lookup domain items = None -> forall v, ~ In (domain, v) items.
Proof.
  induction items as [|[d s] items IH]; simpl; intros H v; [tauto|].
  destruct (String.eqb_spec domain d) as [->|Hne]; [discriminate|].
  intros [[= E _]|Hin]; [congruence|]. exact (IH H v Hin).
Qed.

(** The keys of the authority table are pairwise distinct, so "the table
    value" of a domain is well defined. *)
Lemma domain_scores_keys_distinct : List.NoDup (map fst domain_scores).
Proof.
  unfold domain_scores. simpl.
  repeat (constructor; [simpl; intuition discriminate|]).
  constructor.
Qed.

Lemma endswith_subdomain d domain :
  PyStr.endswith ("." +:+ d) domain = true <-> Spec.subdomain_of d domain.
Proof. rewrite PyStrFacts.endswith_spec. reflexivity. Qed.

Lemma partial_match_some domain items x :
  partial_match domain items = Some x ->
  exists before d v after,
    items = before ++ (d, v) :: after
    /\ Spec.subdomain_of d domain
    /\ (forall d' v', In (d', v') before -> ~ Spec.subdomain_of d' domain)
    /\ x = (v * 0.9)%Q.
Proof.
  induction items as [|[d s] items IH]; simpl; [discriminate|].
  destruct (PyStr.endswith ("." +:+ d) domain) eqn:E.
  - intros [= <-]. exists [], d, s, items.
    split; [reflexivity|]. split; [apply endswith_subdomain; exact E|].
    split; [intros d' v' []|reflexivity].
  - intros H. destruct (IH H) as (before & d0 & v0 & after & -> & Hsub & Hfirst & ->).
    exists ((d, s) :: before), d0, v0, after.
    split; [reflexivity|]. split; [exact Hsub|]. split; [|reflexivity].
    intros d' v' [[= <- <-]|Hin].
    + rewrite <- endswith_subdomain. rewrite E. discriminate.
    + eapply Hfirst. exact Hin.
Qed.

Lemma partial_match_none domain items :
  partial_match domain items = None ->
  forall d v, In (d, v) items -> ~ Spec.subdomain_of d domain.
Proof.
  induction items as [|[d s] items IH]; simpl; intros H d0 v0; [tauto|].
  destruct (PyStr.endswith ("." +:+ d) domain) eqn:E; [discriminate|].
  intros [[= <- <-]|Hin].
  - rewrite <- endswith_subdomain. rewrite E. discriminate.
  - exact (IH H d0 v0 Hin).
Qed.

(** The score written by one round of [compute_authority_scores] is the
    one the specification describes. *)
Lemma authority_of_specified md : Spec.authority_as_specified md (authority_of md).
Proof.
  unfold Spec.authority_as_specified, authority_of.
  set (domain := extract_domain (default "" (url md))).
  set (base :=
    match table_lookup domain domain_scores with
    | Some score => score
    | None => default 0.5%Q (partial_match domain domain_scores)
    end).
  exists base. split; [|split].
  - unfold Spec.base_authority, base.
    destruct (table_lookup domain domain_scores) as [v|] eqn:Hexact.
    + left. exists v. split; [apply table_lookup_some; exact Hexact|reflexivity].
    + right. pose proof (table_lookup_none _ _ Hexact) as Hno.
      destruct (partial_match domain domain_scores) as [x|] eqn:Hpart.
      * left. split; [exact Hno|].
        destruct (partial_match_some _ _ _ Hpart)
          as (before & d & v & after & Hsplit & Hsub & Hfirst & ->).
        exists before, d, v, after. repeat split; assumption.
      * right. split; [exact Hno|]. split; [|reflexivity].
        apply partial_match_none. exact Hpart.
  - intros Hacademic. rewrite Hacademic. simpl.
    apply Q.min_compat; reflexivity.
  - intros Hother.
    destruct (String.eqb_spec (default "" (source_type md)) "academic")
      as [E|E]; [|reflexivity].
    exfalso. apply Hother. destruct (source_type md) as [s|]; simpl in E.
    + rewrite E. reflexivity.
    + discriminate.
Qed.

Local Abbreviation authority_total := (fun md => Ok (authority_of md)).

Lemma compute_authority_scores_annotate chunks :
  compute_authority_scores chunks
  = Stage.annotate authority_total set_authority_score chunks.
Proof. reflexivity. Qed.

(** C6: [compute_authority_scores] runs to its end and writes, into the
    metadata of every chunk, the table value when the extracted domain is
    in the table; 0.9 times the value of the first table entry the domain
    is a subdomain of, when it is not in the table; 0.5 when nothing
    matches; and, when [source_type] is ["academic"], that score times
    1.1, capped at 1.0. *)
Theorem compute_authority_scores_cases (h : heap) chunks :
  Stage.refs_valid h chunks ->
  exists out h',
    compute_authority_scores chunks h = (h', Ok out)
    /\ Forall2 (fun c c' =>
         exists l a,
           meta c' = Some l
           /\ h' !!! l = set_authority_score a (peek_metadata h c)
           /\ Spec.authority_as_specified (peek_metadata h c) a)
         chunks out.
Proof.
  intros Hvalid. rewrite compute_authority_scores_annotate.
  destruct (StageFacts.annotate_spec authority_total set_authority_score)
    with (chunks := chunks) (h := h) as (out & h' & Hrun & _ & Hall).
  - reflexivity.
  - reflexivity.
  - intros md. eexists. reflexivity.
  - exact Hvalid.
  - exists out, h'. split; [exact Hrun|].
    apply (StageFacts.Forall2_impl_In _ _ _ _ Hall).
    intros c c' _ (_ & l & a & Hmeta & Hscore & Hcell & _).
    exists l, a. split; [exact Hmeta|]. split.
    + exact Hcell.
    + injection Hscore as <-. apply authority_of_specified.
Qed.

(** An academic chunk from a subdomain of [nih.gov]. *)
Lemma compute_authority_scores_cases_witness :
  exists out h',
    compute_authority_scores [Samples.chunk_1]
      (Samples.one_dict
         (Samples.with_url "https://sub.nih.gov/abs/1" (Some "academic")))
    = (h', Ok out)
    /\ length out = 1%nat.
Proof.
  destruct (compute_authority_scores_cases
              (Samples.one_dict
                 (Samples.with_url "https://sub.nih.gov/abs/1"
                                   (Some "academic")))
              [Samples.chunk_1])
    as (out & h' & Hrun & Hall).
  - intros c l [<-|[]]; simpl; intros [= <-].
    apply elem_of_dom. eexists. apply lookup_singleton_eq.
  - exists out, h'. split; [exact Hrun|].
    symmetry. apply (Forall2_length _ _ _ Hall).
Defined.

Example authority_exact_academic :
  (authority_of (Samples.with_url "https://arxiv.org/abs/123.456"
                                  (Some "academic")) == 0.935)%Q.
Proof. reflexivity. Qed.

Example authority_subdomain :
  (authority_of (Samples.with_url "https://sub.nih.gov/abs/1" None)
   == 0.81)%Q.
Proof. reflexivity. Qed.

Example authority_unknown :
  (authority_of (Samples.with_url "https://example.net/article" (Some "web"))
   == 0.5)%Q.
Proof. reflexivity. Qed.

End AuthorityFacts.

(** ** Ranking *)

Module RankingFacts.

Import RankAggregator.

Section Sorting.

Context {A : Type}.
Variable key : A -> Q.

Local Abbreviation not_above := (Spec.not_above key).
Local Abbreviation with_key := (Spec.with_key key).

Lemma insert_desc_perm x l : Permutation (x :: l) (insert_desc key x l).
Proof.
  induction l as [|y l IH]; simpl.
  - reflexivity.
  - destruct (Qlt_le_dec (key x) (key y)).
    + rewrite perm_swap. apply perm_skip. exact IH.
    + reflexivity.
Qed.

Lemma sorted_reverse_perm l : Permutation l (sorted_reverse key l).
Proof.
  induction l as [|x l IH]; simpl.
  - reflexivity.
  - rewrite <- insert_desc_perm. apply perm_skip. exact IH.
Qed.

Lemma insert_desc_sorted x l :
  StronglySorted not_above l ->
  StronglySorted not_above (insert_desc key x l).
Proof.
  induction 1 as [|y l Hsorted IH Hall]; simpl.
  - constructor; constructor.
  - destruct (Qlt_le_dec (key x) (key y)) as [Hlt|Hle].
    + constructor; [exact IH|].
      rewrite <- insert_desc_perm. constructor.
      * unfold Spec.not_above. apply Qlt_le_weak. exact Hlt.
      * exact Hall.
    + constructor.
      * constructor; assumption.
      * constructor; [exact Hle|].
        apply (Forall_impl _ _ _ Hall). intros z Hz.
        unfold Spec.not_above in *. apply (Qle_trans _ (key y)); assumption.
Qed.

Lemma sorted_reverse_sorted l :
  StronglySorted not_above (sorted_reverse key l).
Proof.
  induction l as [|x l IH]; simpl.
  - constructor.
  - apply insert_desc_sorted. exact IH.
Qed.

Lemma insert_desc_stable q x l :
  with_key q (insert_desc key x l) = with_key q (x :: l).
Proof.
  induction l as [|y l IH]; [reflexivity|].
  simpl insert_desc. destruct (Qlt_le_dec (key x) (key y)) as [Hlt|Hle];
    [|reflexivity].
  unfold Spec.with_key in *. simpl in *.
  destruct (Qeq_bool (key y) q) eqn:Ey, (Qeq_bool (key x) q) eqn:Ex;
    rewrite IH; try reflexivity.
  apply Qeq_bool_iff in Ex, Ey. rewrite Ex, Ey in Hlt.
  exfalso. exact (Qlt_irrefl _ Hlt).
Qed.

Lemma sorted_reverse_stable q l :
  with_key q (sorted_reverse key l) = with_key q l.
Proof.
  induction l as [|x l IH]; [reflexivity|].
  simpl sorted_reverse. rewrite insert_desc_stable.
  unfold Spec.with_key in *. simpl. rewrite IH. reflexivity.
Qed.

Lemma insert_desc_head x l :
  Forall (not_above x) l -> insert_desc key x l = x :: l.
Proof.
  destruct l as [|y l]; [reflexivity|]. intros Hall.
  apply Forall_cons_1 in Hall as [Hy _]. simpl.
  destruct (Qlt_le_dec (key x) (key y)) as [Hlt|Hle]; [|reflexivity].
  exfalso. unfold Spec.not_above in Hy. exact (Qlt_not_le _ _ Hlt Hy).
Qed.

Lemma sorted_reverse_fixed l :
  StronglySorted not_above l -> sorted_reverse key l = l.
Proof.
  induction 1 as [|x l Hsorted IH Hall]; [reflexivity|].
  simpl. rewrite IH. apply insert_desc_head. exact Hall.
Qed.

Lemma sorted_reverse_idempotent l :
  sorted_reverse key (sorted_reverse key l) = sorted_reverse key l.
Proof. apply sorted_reverse_fixed, sorted_reverse_sorted. Qed.

End Sorting.


(** [select_top_chunks] is a prefix of the ranking. *)
Lemma select_top_chunks_prefix (h : heap) chunks top_n :
  select_top_chunks chunks top_n h
  = (h, Ok (slice_to top_n (sorted_reverse (final_score_key h) chunks))).
Proof. reflexivity. Qed.

Lemma slice_to_all {A} (xs : list A) n :
  (Z.of_nat (length xs) <= n)%Z -> slice_to n xs = xs.
Proof.
  intros Hn. unfold slice_to.
  destruct (Z.ltb_spec n 0); [lia|].
  apply firstn_all2. lia.
Qed.

End RankingFacts.

(** ** Score ranges *)

Module BoundsFacts.

Import RelevanceScorer RankAggregator.


Lemma quality_in_unit c : Spec.in_unit (assess_content_quality c).
Proof.
  unfold assess_content_quality.
  generalize (length (PyStr.split (get_text c))) as wc.
  generalize (indicator_count (get_text c)) as n. intros n wc.
  destruct (300 <? wc)%nat, (150 <? wc)%nat, (75 <? wc)%nat,
    (3 <=? n)%nat, (1 <=? n)%nat; split; vm_compute; discriminate.
Qed.

Lemma domain_scores_in_unit :
  Forall (fun item => Spec.in_unit (snd item)) domain_scores.
Proof. repeat constructor; vm_compute; discriminate. Qed.

Lemma base_in_unit domain :
  Spec.in_unit
    match table_lookup domain domain_scores with
    | Some score => score
    | None => default 0.5%Q (partial_match domain domain_scores)
    end.
Proof.
  pose proof domain_scores_in_unit as Htable.
  rewrite List.Forall_forall in Htable.
  destruct (table_lookup domain domain_scores) as [v|] eqn:Hexact.
  - apply AuthorityFacts.table_lookup_some in Hexact.
    exact (Htable _ Hexact).
  - destruct (partial_match domain domain_scores) as [x|] eqn:Hpart; simpl.
    + apply AuthorityFacts.partial_match_some in Hpart
        as (before & d & v & after & Hsplit & _ & _ & ->).
      assert (Hin : In (d, v) domain_scores)
        by (rewrite Hsplit; apply in_elt).
      destruct (Htable _ Hin) as [H0 H1]. simpl in H0, H1.
      split; lra.
    + split; vm_compute; discriminate.
Qed.

Lemma authority_in_unit md : Spec.in_unit (authority_of md).
Proof.
  unfold authority_of.
  destruct (base_in_unit (extract_domain (default "" (url md)))) as [H0 H1].
  destruct (String.eqb _ "academic"); [|split; assumption].
  split.
  - apply Q.min_glb; [vm_compute; discriminate|lra].
  - apply (Qle_trans _ 1.0%Q); [apply Q.le_min_l|vm_compute; discriminate].
Qed.

Lemma recency_of_range now d :
  (0 <= recency_of now d)%Q
  /\ ((0 <= timedelta_days now d)%Z -> (recency_of now d <= 1)%Q).
Proof.
  unfold recency_of. split; [apply Q.le_max_l|].
  intros Hpast. apply Q.max_lub; [lra|].
  assert (H : (inject_Z 0 <= inject_Z (timedelta_days now d))%Q)
    by (rewrite <- Zle_Qle; exact Hpast).
  change (inject_Z 0) with 0%Q in H.
  unfold Qdiv. change (/ 365)%Q with (1 # 365)%Q.
  change (/ 5)%Q with (1 # 5)%Q. lra.
Qed.

Lemma parse_date_some strptime s formats d :
  parse_date strptime s formats = Some d ->
  exists before fmt after,
    formats = before ++ fmt :: after
    /\ strptime s fmt = Some d
    /\ forall f, In f before -> strptime s f = None.
Proof.
  induction formats as [|fmt formats IH]; simpl; [discriminate|].
  destruct (strptime s fmt) as [d'|] eqn:Hfmt.
  - intros [= ->]. exists [], fmt, formats.
    split; [reflexivity|]. split; [exact Hfmt|]. intros f [].
  - intros H. destruct (IH H) as (before & fmt' & after & -> & Hok & Hnone).
    exists (fmt :: before), fmt', after.
    split; [reflexivity|]. split; [exact Hok|].
    intros f [<-|Hin]; [exact Hfmt|apply Hnone; exact Hin].
Qed.

Lemma recency_range strptime now (h : heap) c :
  (0 <= calculate_recency_score strptime now h c)%Q
  /\ ((forall d, Spec.dated strptime (peek_metadata h c) d ->
                 (0 <= timedelta_days now d)%Z) ->
      (calculate_recency_score strptime now h c <= 1)%Q).
Proof.
  unfold calculate_recency_score.
  generalize (peek_metadata h c) as md. intros md.
  assert (Hhalf : (0 <= 0.5 /\ 0.5 <= 1)%Q) by (split; vm_compute; discriminate).
  destruct (publication_date md) as [[s|d]|] eqn:Hdate.
  - destruct s as [|a s]; [split; [|intros _]; apply Hhalf|].
    destruct (parse_date strptime (String a s) date_formats) as [d|] eqn:Hparse;
      [|split; [|intros _]; apply Hhalf].
    destruct (recency_of_range now d) as [H0 H1]. split; [exact H0|].
    intros Hpast. apply H1, Hpast. right.
    exists (String a s). split; [exact Hdate|]. split; [discriminate|].
    apply parse_date_some. exact Hparse.
  - destruct (recency_of_range now d) as [H0 H1]. split; [exact H0|].
    intros Hpast. apply H1, Hpast. left. exact Hdate.
  - split; [|intros _]; apply Hhalf.
Qed.

(** The decay has no upper cap: a publication date after the clock scores
    above 1. *)
Example recency_of_future_date :
  (1 < calculate_recency_score Samples.strptime Samples.noon_2024_06_01
         (Samples.one_dict (Samples.with_date (DateStr "2030-01-01")))
         Samples.chunk_1)%Q.
Proof. vm_compute. reflexivity. Qed.

Lemma weighted_average_in_unit w r a c q :
  (0 <= semantic w)%Q -> (0 <= authority w)%Q -> (0 <= recency w)%Q ->
  Spec.in_unit r -> Spec.in_unit a -> Spec.in_unit c -> Spec.in_unit q ->
  Spec.in_unit
    ((r * semantic w + a * authority w + c * recency w + q * 0.1)
     / (weights_sum w + 0.1))%Q.
Proof.
  intros Hs Ha Hr [Hr0 Hr1] [Ha0 Ha1] [Hc0 Hc1] [Hq0 Hq1].
  unfold weights_sum.
  set (den := (0 + semantic w + authority w + recency w + 0.1)%Q).
  assert (Hden : (0 < den)%Q) by (unfold den; lra).
  assert (P1 : (0 <= r * semantic w)%Q) by (apply Qmult_le_0_compat; assumption).
  assert (P2 : (0 <= a * authority w)%Q) by (apply Qmult_le_0_compat; assumption).
  assert (P3 : (0 <= c * recency w)%Q) by (apply Qmult_le_0_compat; assumption).
  assert (U1 : (r * semantic w <= 1 * semantic w)%Q)
    by (apply Qmult_le_compat_r; assumption).
  assert (U2 : (a * authority w <= 1 * authority w)%Q)
    by (apply Qmult_le_compat_r; assumption).
  assert (U3 : (c * recency w <= 1 * recency w)%Q)
    by (apply Qmult_le_compat_r; assumption).
  split.
  - apply Qle_shift_div_l; [exact Hden|]. lra.
  - apply Qle_shift_div_r; [exact Hden|]. unfold den. lra.
Qed.

(** Under non-negative weights the fusion is defined, and it stays in
    [0,1] when the four scores it reads do. *)
Lemma fusion_in_unit w md :
  (0 <= semantic w)%Q -> (0 <= authority w)%Q -> (0 <= recency w)%Q ->
  exists f,
    py_div (weighted_sum w md) (weights_sum w + 0.1) = Ok f
    /\ (Spec.opt_in_unit (relevance_score md) ->
        Spec.opt_in_unit (authority_score md) ->
        Spec.opt_in_unit (recency_score md) ->
        Spec.opt_in_unit (quality_score md) ->
        Spec.in_unit f).
Proof.
  intros Hs Ha Hr.
  assert (Hden : ~ (weights_sum w + 0.1 == 0)%Q)
    by (unfold weights_sum; lra).
  exists (weighted_sum w md / (weights_sum w + 0.1))%Q.
  split; [apply FusionFacts.py_div_ok; exact Hden|].
  intros Hrel Haut Hrec Hqual.
  assert (Hneutral : forall x, Spec.opt_in_unit x ->
                               Spec.in_unit (default 0.5%Q x)).
  { intros [x|]; simpl; [tauto|]. intros _. split; vm_compute; discriminate. }
  unfold weighted_sum.
  apply weighted_average_in_unit; auto.
Qed.

End BoundsFacts.

(** ** The pipeline of [select_content] *)

Module PipelineFacts.

Import RelevanceScorer RankAggregator.

Lemma bind_inv_ok {A B} (m : M A) (k : A -> M B) (h h' : heap) b :
  bind m k h = (h', Ok b) ->
  exists h1 a, m h = (h1, Ok a) /\ k a h1 = (h', Ok b).
Proof.
  unfold bind. destruct (m h) as [h1 [a|e]]; [|discriminate].
  intros H. exists h1, a. split; [reflexivity|exact H].
Qed.

Lemma Forall2_Forall_r {A B} (R : A -> B -> Prop) (P : A -> Prop)
    (T : B -> Prop) xs ys :
  Forall2 R xs ys -> Forall P xs ->
  (forall x y, P x -> R x y -> T y) ->
  Forall T ys.
Proof.
  intros HR. induction HR as [|x y xs ys Hxy _ IH]; intros HP Himpl.
  - constructor.
  - apply Forall_cons_1 in HP as [Hx Hxs]. constructor.
    + exact (Himpl x y Hx Hxy).
    + exact (IH Hxs Himpl).
Qed.

(** The chunk refers to a dict of the store and that dict satisfies [P]. *)
Local Abbreviation holds P h c :=
  (exists l : positive, meta c = Some l /\ l ∈ dom h /\ P (h !!! l)).

Lemma holds_refs_valid (P : metadata -> Prop) (h : heap) chunks :
  Forall (fun c => holds P h c) chunks -> Stage.refs_valid h chunks.
Proof.
  intros Hall c l Hin Hl. rewrite List.Forall_forall in Hall.
  destruct (Hall c Hin) as (l' & Hl' & Hdom & _). congruence.
Qed.

(** A stage of the aggregator takes chunks whose dicts satisfy [P] to
    chunks whose dicts satisfy [T], when writing the score does so. *)
Lemma annotated_holds score set (P T : metadata -> Prop) (h h' : heap)
    chunks out :
  Stage.evolves score set h h' ->
  Forall2 (Stage.annotated score set h h') chunks out ->
  Forall (fun c => holds P h c) chunks ->
  (forall md v, P md -> score md = Ok v -> T (set v md)) ->
  Forall (fun c => holds T h' c) out.
Proof.
  intros [Hdom _] Hall HP Hstep.
  apply (Forall2_Forall_r _ _ _ _ _ Hall HP).
  intros c c' (l & Hl & Hin & Hmd) (_ & l' & v & Hmeta & Hscore & Hcell & Hwhere).
  unfold peek_metadata in *. rewrite Hl in *.
  destruct Hwhere as [[= <-]|[[=] _]].
  exists l. split; [exact Hmeta|]. split; [apply Hdom; exact Hin|].
  rewrite Hcell. apply Hstep; assumption.
Qed.

Lemma take_In {A} (x : A) k : forall xs, In x (take k xs) -> In x xs.
Proof.
  induction k as [|k IH]; intros [|y xs]; simpl; try tauto.
  intros [->|Hin]; [left; reflexivity|right; apply IH; exact Hin].
Qed.

Lemma slice_to_In {A} (x : A) n xs : In x (slice_to n xs) -> In x xs.
Proof. unfold slice_to. destruct (n <? 0)%Z; apply take_In. Qed.

Section Library.

Variable strptime : string -> string -> option datetime.
Variable embed_content : string -> list Q.
Variable now : nat -> datetime.
Variable weights : RankAggregator.weights.

Local Abbreviation has_recency := Spec.has_recency.
Local Abbreviation scored := Spec.scored.

(** The recency loop of [select_content]: it runs to its end, leaves the
    dicts it found as they were, and emits chunks on new dicts that hold
    a recency score. *)
Lemma recency_loop_spec chunks : forall start (h : heap),
  exists out h',
    for_each_from start (fun i c =>
      bind (read (fun h =>
              calculate_recency_score strptime (now i) h c))
        (fun recency_score =>
      bind (read (fun h => peek_metadata h c)) (fun md =>
      bind (copy_dict md) (fun metadata =>
      bind (store metadata (set_recency_score recency_score)) (fun _ =>
      ret {| text := Some (get_text c); meta := Some metadata |})))))
      chunks h = (h', Ok out)
    /\ dom h ⊆ dom h'
    /\ (forall l, l ∈ dom h -> h' !!! l = h !!! l)
    /\ Forall (fun c => holds has_recency h' c) out.
Proof.
  induction chunks as [|c chunks IH]; intros start h.
  - exists [], h. split; [reflexivity|]. split; [reflexivity|].
    split; [reflexivity|constructor].
  - set (r := calculate_recency_score strptime (now start) h c).
    set (l := fresh (dom h)).
    set (h2 := <[l := set_recency_score r (peek_metadata h c)]> h).
    assert (Hfresh : l ∉ dom h) by apply is_fresh.
    destruct (IH (S start) h2) as (out & h' & Hrun & Hdom & Hframe & Hall).
    assert (Hl2 : l ∈ dom h2)
      by (unfold h2; rewrite dom_insert_L; apply elem_of_union_l,
            elem_of_singleton; reflexivity).
    assert (Hstep :
      bind (read (fun h =>
              calculate_recency_score strptime (now start) h c))
        (fun recency_score =>
      bind (read (fun h => peek_metadata h c)) (fun md =>
      bind (copy_dict md) (fun metadata =>
      bind (store metadata (set_recency_score recency_score)) (fun _ =>
      ret {| text := Some (get_text c); meta := Some metadata |})))) h
      = (h2, Ok {| text := Some (get_text c); meta := Some l |})).
    { unfold bind, read, copy_dict, store, ret. fold l.
      rewrite lookup_total_insert_eq, insert_insert_eq. reflexivity. }
    exists ({| text := Some (get_text c); meta := Some l |} :: out), h'.
    split; [|split; [|split]].
    + cbn [for_each_from].
      erewrite StageFacts.bind_ok; [|exact Hstep].
      erewrite StageFacts.bind_ok; [|exact Hrun]. reflexivity.
    + intros l0 Hl0. apply Hdom. unfold h2. rewrite dom_insert_L.
      apply elem_of_union_r. exact Hl0.
    + intros l0 Hl0. rewrite Hframe.
      * unfold h2. apply lookup_total_insert_ne. intros ->. contradiction.
      * unfold h2. rewrite dom_insert_L. apply elem_of_union_r. exact Hl0.
    + constructor; [|exact Hall].
      exists l. split; [reflexivity|]. split; [apply Hdom; exact Hl2|].
      rewrite (Hframe l Hl2). unfold h2. rewrite lookup_total_insert_eq.
      exists r. split; [reflexivity|].
      apply (BoundsFacts.recency_range strptime (now start) h c).
Qed.

Lemma select_content_scored q chunks top_n (h h' : heap) out :
  (0 <= semantic weights)%Q -> (0 <= authority weights)%Q ->
  (0 <= recency weights)%Q ->
  ContentSelector.select_content strptime embed_content now weights
    q chunks top_n h = (h', Ok out) ->
  forall c, In c out -> scored (peek_metadata h' c).
Proof.
  intros Hs Ha Hr. unfold ContentSelector.select_content.
  destruct (negb (query_truthy q) || is_empty chunks).
  { intros [= <- <-] c []. }
  intros Hrun.
  apply bind_inv_ok in Hrun as (h1 & cs1 & _ & Hrun).
  apply bind_inv_ok in Hrun as (h2 & cs2 & Hrec & Hrun).
  apply bind_inv_ok in Hrun as (h3 & cs3 & Haut & Hrun).
  apply bind_inv_ok in Hrun as (h4 & cs4 & Hfin & Hrun).
  (* the recency loop *)
  destruct (recency_loop_spec cs1 0%nat h1) as (cs2' & h2' & Hrec' & _ & _ & H2).
  rewrite Hrec' in Hrec. injection Hrec as <- <-.
  (* authority *)
  rewrite AuthorityFacts.compute_authority_scores_annotate in Haut.
  destruct (StageFacts.annotate_spec (fun md => Ok (authority_of md))
              set_authority_score) with (chunks := cs2') (h := h2')
    as (cs3' & h3' & Haut' & Hev3 & Hall3);
    [reflexivity|reflexivity|intros md; eexists; reflexivity
    |exact (holds_refs_valid _ _ _ H2)|].
  rewrite Haut' in Haut. injection Haut as <- <-.
  pose proof (annotated_holds _ _ has_recency
    (fun md => has_recency md
               /\ exists a, authority_score md = Some a /\ Spec.in_unit a)
    _ _ _ _ Hev3 Hall3 H2) as H3.
  specialize (H3 ltac:(intros md v Hmd [= <-]; split;
    [exact Hmd|exists (authority_of md); split;
      [reflexivity|apply BoundsFacts.authority_in_unit]])).
  (* fusion *)
  rewrite FusionFacts.calculate_final_scores_annotate in Hfin.
  destruct (StageFacts.annotate_spec
              (fun md => py_div (weighted_sum weights md)
                                (weights_sum weights + 0.1))
              set_final_score) with (chunks := cs3') (h := h3')
    as (cs4' & h4' & Hfin' & Hev4 & Hall4);
    [reflexivity|reflexivity
    |intros md; destruct (BoundsFacts.fusion_in_unit weights md Hs Ha Hr)
       as (f & Hf & _); exists f; exact Hf
    |exact (holds_refs_valid _ _ _ H3)|].
  rewrite Hfin' in Hfin. injection Hfin as <- <-.
  pose proof (annotated_holds _ _ _ scored _ _ _ _ Hev4 Hall4 H3) as H4.
  specialize (H4 ltac:(
    intros md v [Hrecency (a & Hauth & Hunit)] Hv; split; [exact Hrecency|];
    split; [exists a; split; assumption|]; exists v; split; [reflexivity|];
    simpl; intros Hrel Hrc Hq;
    destruct (BoundsFacts.fusion_in_unit weights md Hs Ha Hr) as (f & Hf & Hin);
    rewrite Hf in Hv; injection Hv as <-; apply Hin;
    [exact Hrel|rewrite Hauth; exact Hunit|exact Hrc|exact Hq])).
  (* ranking and selection *)
  unfold select_top_chunks, rank_chunks, bind, ret in Hrun.
  injection Hrun as <- <-.
  intros c Hin. apply slice_to_In in Hin.
  apply (Permutation_in _ (Permutation_sym
           (RankingFacts.sorted_reverse_perm _ _))) in Hin.
  rewrite List.Forall_forall in H4.
  destruct (H4 c Hin) as (l & Hl & _ & Hscored).
  unfold peek_metadata. rewrite Hl. exact Hscored.
Qed.

End Library.



End PipelineFacts.

(** ** Stages and the caller's metadata *)

Module FrameFacts.

Import RelevanceScorer RankAggregator.

(** A stage of the aggregator writes its score into the very dict the
    input chunk refers to. *)
Lemma annotated_writes_input score set (h h' : heap) c c' l :
  Stage.annotated score set h h' c c' ->
  meta c = Some l ->
  meta c' = Some l
  /\ exists v, score (h !!! l) = Ok v /\ h' !!! l = set v (h !!! l).
Proof.
  intros (_ & l0 & v & Hmeta & Hscore & Hcell & Hwhere) Hl.
  unfold peek_metadata in *. rewrite Hl in *.
  destruct Hwhere as [[= <-]|[[=] _]].
  split; [exact Hmeta|]. exists v. split; assumption.
Qed.

(** C3 fails on the code.  With one chunk whose metadata dict (at
    reference 1) holds an embedding, [score_chunks] leaves
    [relevance_score] and [quality_score] in that same dict and emits a
    chunk that refers to it; [compute_authority_scores] and
    [calculate_final_scores] do the same with their scores; and after the
    whole of [select_content] the caller's dict holds the relevance and
    quality scores, while the later scores went to the copy made by the
    recency loop. *)
Theorem stages_write_into_callers_metadata :
  let h := Samples.one_dict (Samples.with_embedding [1%Q]) in
  relevance_score (h !!! 1%positive) = None
  /\ (exists h' c',
        score_chunks Samples.embed_content (Samples.embedded_query [1%Q])
                     [Samples.chunk_1] h = (h', Ok [c'])
        /\ meta c' = Some 1%positive
        /\ is_Some (relevance_score (h' !!! 1%positive))
        /\ is_Some (quality_score (h' !!! 1%positive)))
  /\ (exists h' c',
        compute_authority_scores [Samples.chunk_1] h = (h', Ok [c'])
        /\ meta c' = Some 1%positive
        /\ authority_score (h !!! 1%positive) = None
        /\ is_Some (authority_score (h' !!! 1%positive)))
  /\ (exists h' c',
        calculate_final_scores default_weights [Samples.chunk_1] h
        = (h', Ok [c'])
        /\ meta c' = Some 1%positive
        /\ final_score (h !!! 1%positive) = None
        /\ is_Some (final_score (h' !!! 1%positive)))
  /\ (exists h' c',
        ContentSelector.select_content Samples.strptime
          Samples.embed_content Samples.now default_weights
          (Samples.embedded_query [1%Q]) [Samples.chunk_1] 10 h
        = (h', Ok [c'])
        /\ meta c' <> Some 1%positive
        /\ is_Some (relevance_score (h' !!! 1%positive))
        /\ is_Some (quality_score (h' !!! 1%positive))
        /\ h' !!! 1%positive <> h !!! 1%positive).
Proof.
  intros h. split; [reflexivity|].
  split; [|split; [|split]].
  - eexists _, _. split; [vm_compute; reflexivity|].
    split; [reflexivity|]. split; vm_compute; eauto.
  - eexists _, _. split; [vm_compute; reflexivity|].
    split; [reflexivity|]. split; [reflexivity|]. vm_compute. eauto.
  - eexists _, _. split; [vm_compute; reflexivity|].
    split; [reflexivity|]. split; [reflexivity|]. vm_compute. eauto.
  - eexists _, _. split; [vm_compute; reflexivity|].
    split; [discriminate|]. split; [vm_compute; eauto|].
    split; [vm_compute; eauto|]. vm_compute. discriminate.
Qed.

End FrameFacts.

(** ** The engine *)

Module SystemFacts.

Import RankAggregator RankingSystem.

Section Library.

Variable strptime : string -> string -> option datetime.
Variable embed_content : string -> list Q.
Variable now : nat -> datetime.
Variable weights : RankAggregator.weights.
Variables start_time end_time : Q.

Local Abbreviation select :=
  (ContentSelector.select_content strptime embed_content now weights).
Local Abbreviation rank :=
  (rank_content strptime embed_content now weights start_time end_time).
Local Abbreviation after_success self n :=
  {| config_top_n := config_top_n self;
     sys_metrics := update_metrics (sys_metrics self) n
                                   (end_time - start_time) |}.

(** [rank_content] in terms of the outcome of the selector. *)
Lemma rank_content_ok self q chunks top_n (h h' : heap) ranked :
  select (Spec.as_query embed_content q) chunks
         (Spec.effective_top_n self top_n) h = (h', Ok ranked) ->
  rank self q chunks top_n h
  = (h', Ok (after_success self (length chunks), ranked)).
Proof.
  intros Hsel. unfold rank_content, try_except, bind, ret.
  destruct q; simpl in Hsel; destruct top_n; simpl in Hsel;
    rewrite Hsel; reflexivity.
Qed.

Lemma rank_content_raise self q chunks top_n (h h' : heap) e :
  select (Spec.as_query embed_content q) chunks
         (Spec.effective_top_n self top_n) h = (h', Raise e) ->
  rank self q chunks top_n h = (h', Ok (self, [])).
Proof.
  intros Hsel. unfold rank_content, try_except, bind, ret.
  destruct q; simpl in Hsel; destruct top_n; simpl in Hsel;
    rewrite Hsel; reflexivity.
Qed.

Lemma select_content_empty q chunks top_n (h : heap) :
  query_truthy q = false \/ chunks = [] ->
  select q chunks top_n h = (h, Ok []).
Proof.
  intros [Hq| ->]; unfold ContentSelector.select_content.
  - rewrite Hq. reflexivity.
  - rewrite orb_true_r. reflexivity.
Qed.

(** The two ways [rank_content] ends: the selection returned, or it
    raised and the handler answered. *)
Lemma rank_content_outcome self q chunks top_n (h : heap) :
  (exists h' ranked,
     select (Spec.as_query embed_content q) chunks
            (Spec.effective_top_n self top_n) h = (h', Ok ranked)
     /\ rank self q chunks top_n h
        = (h', Ok (after_success self (length chunks), ranked)))
  \/ (exists h' e,
        select (Spec.as_query embed_content q) chunks
               (Spec.effective_top_n self top_n) h = (h', Raise e)
        /\ rank self q chunks top_n h = (h', Ok (self, []))).
Proof.
  destruct (select (Spec.as_query embed_content q) chunks
                   (Spec.effective_top_n self top_n) h)
    as [h' [ranked|e]] eqn:Hsel.
  - left. exists h', ranked. split; [reflexivity|].
    apply rank_content_ok. exact Hsel.
  - right. exists h', e. split; [reflexivity|].
    eapply rank_content_raise. exact Hsel.
Qed.

End Library.




(** C10: [process_and_rank] always returns a result; its [total_chunks]
    is the number of chunks in the returned [ranked_chunks], and its
    [processing_time] is the engine's average time after the call,
    formatted to two decimals and followed by ["s"]; that average is the
    exponential moving average when the ranking succeeded and the old
    average when it raised.  On an engine whose average stands at 2
    seconds, a call that takes 1 second on two chunks with [top_n = 1]
    reports one chunk and ["1.90s"], neither the two input chunks nor
    the ["1.00s"] of the call. *)
Theorem process_and_rank_result :
  (forall strptime embed_content now weights start_time end_time
          self q chunks top_n (h : heap),
     exists h' self' res,
       process_and_rank strptime embed_content now weights start_time
                        end_time self q chunks top_n h
       = (h', Ok (self', res))
       /\ total_chunks res = length (ranked_chunks res)
       /\ processing_time res
          = format_2f (average_time (sys_metrics self')) +:+ "s"
       /\ (sys_metrics self'
           = update_metrics (sys_metrics self) (length chunks)
                            (end_time - start_time)
           \/ (self' = self /\ ranked_chunks res = [])))
  /\ (exists h' self' res,
        process_and_rank Samples.strptime Samples.embed_content Samples.now
          default_weights 0 1 Samples.warm_system
          (QDict (Samples.embedded_query [1%Q]))
          [Samples.chunk_1; Samples.chunk_2] (Some 1%Z)
          (Samples.two_dicts (Samples.with_embedding [1%Q])
                             (Samples.with_embedding [(-1)%Q]))
        = (h', Ok (self', res))
        /\ total_chunks res = 1%nat
        /\ processing_time res = "1.90s"
        /\ format_2f (1 - 0) +:+ "s" = "1.00s").
Proof.
  split.
  - intros strptime embed_content now weights start_time end_time
           self q chunks top_n h.
    set (q' := match q with
               | QText query_text => QDict (process_query embed_content query_text)
               | QDict _ => q
               end).
    unfold process_and_rank. fold q'.
    destruct (rank_content_outcome strptime embed_content now weights
                start_time end_time self q' chunks top_n h)
      as [(h' & ranked & _ & Hrank)|(h' & e & _ & Hrank)];
      rewrite (StageFacts.bind_ok _ _ _ _ _ Hrank);
      eexists _, _, _; (split; [reflexivity|]);
      (split; [reflexivity|]); (split; [reflexivity|]); simpl.
    + left. reflexivity.
    + right. split; reflexivity.
  - eexists _, _, _. split; [vm_compute; reflexivity|].
    split; [reflexivity|]. split; reflexivity.
Qed.

End SystemFacts.

(** ** Loops over chunks *)

Module LoopFacts.

(** What a loop does to the store and what it emits, from what one round
    does: [R] relates the stores around a round, [T] an element to what
    the round emits for it, [E] holds of the exceptions a round raises. *)
Lemma for_each_from_outcome {A B} (R : heap -> heap -> Prop)
    (T : A -> B -> Prop) (E : exn -> Prop)
    (body : nat -> A -> M B) (xs : list A) :
  (forall h, R h h) ->
  (forall h1 h2 h3, R h1 h2 -> R h2 h3 -> R h1 h3) ->
  (forall i x (h h' : heap) r, In x xs -> body i x h = (h', r) ->
     R h h' /\ match r with Ok y => T x y | Raise e => E e end) ->
  forall start (h h' : heap) r,
    for_each_from start body xs h = (h', r) ->
    R h h' /\ match r with Ok out => Forall2 T xs out | Raise e => E e end.
Proof.
  intros Hrefl Htrans. induction xs as [|x xs IH]; intros Hbody start h h' r.
  - simpl. intros [= <- <-]. split; [apply Hrefl|constructor].
  - cbn [for_each_from]. unfold bind at 1.
    destruct (body start x h) as [h1 [y|e]] eqn:Hx.
    + destruct (Hbody _ _ _ _ _ (or_introl eq_refl) Hx) as [HR HT].
      unfold bind at 1.
      destruct (for_each_from (S start) body xs h1) as [h2 [ys|e]] eqn:Hxs.
      * destruct (IH (fun i z g g' s Hin => Hbody i z g g' s (or_intror Hin))
                     _ _ _ _ Hxs) as [HR' HT'].
        unfold ret. intros [= <- <-]. split; [eapply Htrans; eassumption|].
        constructor; assumption.
      * destruct (IH (fun i z g g' s Hin => Hbody i z g g' s (or_intror Hin))
                     _ _ _ _ Hxs) as [HR' HE].
        intros [= <- <-]. split; [eapply Htrans; eassumption|exact HE].
    + destruct (Hbody _ _ _ _ _ (or_introl eq_refl) Hx) as [HR HE].
      intros [= <- <-]. split; assumption.
Qed.

(** A loop that runs to its end emits one element per input element. *)
Lemma for_each_from_length {A B} (body : nat -> A -> M B) xs start
    (h h' : heap) out :
  for_each_from start body xs h = (h', Ok out) -> length out = length xs.
Proof.
  intros Hrun.
  assert (H : True /\ Forall2 (fun _ _ => True) xs out).
  { apply (for_each_from_outcome (fun _ _ => True) (fun _ _ => True)
             (fun _ => True) body xs (fun _ => I) (fun _ _ _ _ _ => I))
      with (start := start) (h := h) (h' := h') (r := Ok out);
      [|exact Hrun].
    intros i x g g' r _ _. split; [exact I|destruct r; exact I]. }
  destruct H as [_ Hall]. symmetry. apply (Forall2_length _ _ _ Hall).
Qed.

(** The same with an invariant [Inv] of the store that every round may
    rely on and must restore, also when it raises. *)
Lemma for_each_from_invariant {A B} (Inv : heap -> Prop)
    (T : A -> B -> Prop) (body : nat -> A -> M B) (xs : list A) :
  (forall i x (h h' : heap) r, In x xs -> Inv h -> body i x h = (h', r) ->
     Inv h' /\ match r with Ok y => T x y | Raise _ => True end) ->
  forall start (h h' : heap) r,
    Inv h ->
    for_each_from start body xs h = (h', r) ->
    Inv h' /\ match r with Ok out => Forall2 T xs out | Raise _ => True end.
Proof.
  induction xs as [|x xs IH]; intros Hbody start h h' r Hinv.
  - simpl. intros [= <- <-]. split; [exact Hinv|constructor].
  - cbn [for_each_from]. unfold bind at 1.
    destruct (body start x h) as [h1 [y|e]] eqn:Hx.
    + destruct (Hbody _ _ _ _ _ (or_introl eq_refl) Hinv Hx) as [H1 HT].
      unfold bind at 1.
      destruct (for_each_from (S start) body xs h1) as [h2 [ys|e]] eqn:Hxs.
      * destruct (IH (fun i z g g' s Hin => Hbody i z g g' s (or_intror Hin))
                     _ _ _ _ H1 Hxs) as [H2 HT'].
        unfold ret. intros [= <- <-]. split; [exact H2|].
        constructor; assumption.
      * destruct (IH (fun i z g g' s Hin => Hbody i z g g' s (or_intror Hin))
                     _ _ _ _ H1 Hxs) as [H2 _].
        intros [= <- <-]. split; [exact H2|exact I].
    + destruct (Hbody _ _ _ _ _ (or_introl eq_refl) Hinv Hx) as [H1 _].
      intros [= <- <-]. split; [exact H1|exact I].
Qed.

End LoopFacts.

(** ** More on the aggregator *)

Module AggregatorFacts.

Import RankAggregator.



Lemma slice_to_length {A} n (xs : list A) :
  length (slice_to n xs) = Props.slice_length n (length xs).
Proof.
  unfold slice_to, Props.slice_length.
  destruct (n <? 0)%Z eqn:E; rewrite length_take.
  - apply Z.ltb_lt in E. lia.
  - reflexivity.
Qed.

Lemma slice_to_prefix {A} n (xs : list A) :
  exists k, slice_to n xs = take k xs.
Proof. unfold slice_to. destruct (n <? 0)%Z; eexists; reflexivity. Qed.

Lemma sorted_app_order {A} (R : A -> A -> Prop) l1 l2 :
  StronglySorted R (l1 ++ l2) ->
  StronglySorted R l1
  /\ forall x y, In x l1 -> In y l2 -> R x y.
Proof.
  induction l1 as [|a l1 IH]; simpl; intros Hs.
  - split; [constructor|]. intros x y [].
  - apply StronglySorted_inv in Hs as [Hs Hall].
    destruct (IH Hs) as [Hs1 Hcross]. split.
    + constructor; [exact Hs1|].
      apply Forall_app in Hall as [Hall _]. exact Hall.
    + intros x y [<-|Hx] Hy.
      * rewrite List.Forall_forall in Hall. apply Hall.
        apply in_or_app. right. exact Hy.
      * apply Hcross; assumption.
Qed.

(** X2: [select_top_chunks] leaves the store alone and splits the chunks
    into the selection and the rest: the selection is in descending order
    of [final_score], no chunk of the rest outranks a selected chunk, the
    selection has [min(top_n, len)] chunks for [top_n >= 0] and [max(0,
    len + top_n)] for a negative [top_n], and nothing is left out when
    [top_n] is at least the number of chunks. *)
Theorem select_top_chunks_best (h : heap) (chunks : list chunk) top_n :
  exists out rest,
    select_top_chunks chunks top_n h = (h, Ok out)
    /\ Permutation chunks (out ++ rest)
    /\ StronglySorted (Spec.not_above (final_score_key h)) out
    /\ (forall c c', In c out -> In c' rest ->
          (final_score_key h c' <= final_score_key h c)%Q)
    /\ length out = Props.slice_length top_n (length chunks)
    /\ ((Z.of_nat (length chunks) <= top_n)%Z -> rest = []).
Proof.
  set (ranked := sorted_reverse (final_score_key h) chunks).
  destruct (slice_to_prefix top_n ranked) as [k Hk].
  exists (slice_to top_n ranked), (drop k ranked).
  assert (Hsplit : ranked = slice_to top_n ranked ++ drop k ranked)
    by (rewrite Hk; symmetry; apply take_drop).
  pose proof (RankingFacts.sorted_reverse_sorted (final_score_key h) chunks)
    as Hsorted. fold ranked in Hsorted. rewrite Hsplit in Hsorted.
  destruct (sorted_app_order _ _ _ Hsorted) as [Hout Hcross].
  split; [reflexivity|]. split.
  { rewrite <- Hsplit. apply RankingFacts.sorted_reverse_perm. }
  split; [exact Hout|]. split; [exact Hcross|]. split.
  - rewrite slice_to_length. unfold ranked.
    rewrite <- (Permutation_length
                  (RankingFacts.sorted_reverse_perm (final_score_key h) chunks)).
    reflexivity.
  - intros Hall.
    assert (Hlen : length ranked = length chunks).
    { unfold ranked. symmetry. apply Permutation_length,
        RankingFacts.sorted_reverse_perm. }
    assert (Hfull : slice_to top_n ranked = ranked)
      by (apply RankingFacts.slice_to_all; lia).
    rewrite Hfull in Hsplit.
    apply (f_equal (@length chunk)) in Hsplit.
    rewrite length_app in Hsplit.
    destruct (drop k ranked); [reflexivity|simpl in Hsplit; lia].
Qed.

(** Three chunks with final scores 0.2, 0.9 and 0.5 and [top_n = 2]: the
    chunks with 0.9 and 0.5 are selected, in that order. *)
Lemma select_top_chunks_best_witness :
  select_top_chunks
    [Samples.chunk_1; Samples.chunk_2; MoreSamples.chunk_3] 2
    MoreSamples.three_ranked
  = (MoreSamples.three_ranked, Ok [Samples.chunk_2; MoreSamples.chunk_3])
  /\ (select_top_chunks
        [Samples.chunk_1; Samples.chunk_2; MoreSamples.chunk_3] 5
        MoreSamples.three_ranked
      = (MoreSamples.three_ranked,
         Ok [Samples.chunk_2; MoreSamples.chunk_3; Samples.chunk_1])).
Proof.
  split; [vm_compute; reflexivity|].
  destruct (select_top_chunks_best MoreSamples.three_ranked
              [Samples.chunk_1; Samples.chunk_2; MoreSamples.chunk_3] 5)
    as (out & rest & Hrun & _ & _ & _ & _ & Hrest).
  specialize (Hrest ltac:(simpl; lia)). subst rest.
  rewrite Hrun. vm_compute in Hrun. injection Hrun as <-. reflexivity.
Defined.

Lemma py_div_inv a b f :
  py_div a b = Ok f -> ~ (b == 0)%Q /\ f = (a / b)%Q.
Proof.
  unfold py_div. destruct (Qeq_bool b 0) eqn:E; [discriminate|].
  intros [= <-]. split; [|reflexivity].
  intros Hb. apply Qeq_bool_iff in Hb. congruence.
Qed.

(** X3: under non-negative weights the final score grows with every
    signal: when each of the four scores of one dict (absent ones counting
    as 0.5) is at most the corresponding score of another, so is the final
    score. *)
Theorem final_score_monotone w md md' f f' :
  (0 <= semantic w)%Q -> (0 <= authority w)%Q -> (0 <= recency w)%Q ->
  py_div (weighted_sum w md) (weights_sum w + 0.1) = Ok f ->
  py_div (weighted_sum w md') (weights_sum w + 0.1) = Ok f' ->
  (default 0.5 (relevance_score md) <= default 0.5 (relevance_score md'))%Q ->
  (default 0.5 (authority_score md) <= default 0.5 (authority_score md'))%Q ->
  (default 0.5 (recency_score md) <= default 0.5 (recency_score md'))%Q ->
  (default 0.5 (quality_score md) <= default 0.5 (quality_score md'))%Q ->
  (f <= f')%Q.
Proof.
  intros Hs Ha Hr Hf Hf' Hrel Haut Hrec Hqual.
  apply py_div_inv in Hf as [_ ->]. apply py_div_inv in Hf' as [_ ->].
  assert (Hden : (0 < weights_sum w + 0.1)%Q) by (unfold weights_sum; lra).
  unfold Qdiv. apply Qmult_le_compat_r.
  - unfold weighted_sum.
    pose proof (Qmult_le_compat_r _ _ (semantic w) Hrel Hs).
    pose proof (Qmult_le_compat_r _ _ (authority w) Haut Ha).
    pose proof (Qmult_le_compat_r _ _ (recency w) Hrec Hr).
    lra.
  - apply Qlt_le_weak, Qinv_lt_0_compat. exact Hden.
Qed.

(** Under the default weights a dict with relevance 0.9 does not score
    below the same dict with relevance 0.3. *)
Lemma final_score_monotone_witness :
  exists f f',
    py_div (weighted_sum default_weights (Samples.with_scores 0.3 0.7 0.8))
           (weights_sum default_weights + 0.1) = Ok f
    /\ py_div (weighted_sum default_weights (Samples.with_scores 0.9 0.7 0.8))
              (weights_sum default_weights + 0.1) = Ok f'
    /\ (f <= f')%Q.
Proof.
  eexists _, _. split; [reflexivity|]. split; [reflexivity|].
  apply (final_score_monotone default_weights
           (Samples.with_scores 0.3 0.7 0.8) (Samples.with_scores 0.9 0.7 0.8));
    try reflexivity; vm_compute; discriminate.
Defined.

(** X4: whatever the weights, when the four signals are equal the final
    score is that common value; a dict without any score gets 0.5. *)
Theorem final_score_of_equal_signals w md f x :
  py_div (weighted_sum w md) (weights_sum w + 0.1) = Ok f ->
  (default 0.5 (relevance_score md) == x)%Q ->
  (default 0.5 (authority_score md) == x)%Q ->
  (default 0.5 (recency_score md) == x)%Q ->
  (default 0.5 (quality_score md) == x)%Q ->
  (f == x)%Q.
Proof.
  intros Hf Hrel Haut Hrec Hqual.
  apply py_div_inv in Hf as [Hden ->].
  unfold weighted_sum. rewrite Hrel, Haut, Hrec, Hqual.
  unfold weights_sum in *. field. intros H. apply Hden. lra.
Qed.

Lemma final_score_of_equal_signals_witness :
  exists f,
    py_div (weighted_sum default_weights empty_metadata)
           (weights_sum default_weights + 0.1) = Ok f
    /\ (f == 0.5)%Q.
Proof.
  eexists. split; [reflexivity|].
  apply (final_score_of_equal_signals default_weights empty_metadata);
    reflexivity.
Defined.



End AggregatorFacts.

(** ** More on the embedder *)

Module SimilarityFacts.

Import Embedder.

Lemma np_dot_comm a : forall b, Props.same_outcome (np_dot a b) (np_dot b a).
Proof.
  induction a as [|x a IH]; intros [|y b]; simpl; try reflexivity.
  specialize (IH b).
  destruct (np_dot a b) as [d|e], (np_dot b a) as [d'|e']; simpl in *;
    try contradiction; [|exact IH].
  rewrite IH. ring.
Qed.

Lemma np_dot_length a : forall b,
  match np_dot a b with
  | Ok _ => length a = length b
  | Raise e => e = ValueError /\ length a <> length b
  end.
Proof.
  induction a as [|x a IH]; intros [|y b]; simpl;
    try reflexivity; try (split; [reflexivity|discriminate]).
  specialize (IH b). destruct (np_dot a b) as [d|e].
  - now rewrite IH.
  - destruct IH as [-> Hne]. split; [reflexivity|]. intros [= H]. contradiction.
Qed.

(** X6: the similarity does not depend on the order of its arguments:
    both orders give equal values, or both raise the same exception. *)
Theorem compute_similarity_symmetric a b :
  Props.same_outcome (compute_similarity a b) (compute_similarity b a).
Proof.
  unfold compute_similarity.
  rewrite (orb_comm (negb (truthy (Some b)))).
  destruct (negb (truthy (Some a)) || negb (truthy (Some b)));
    [simpl; reflexivity|].
  rewrite (orb_comm (Qeq_bool (np_linalg_norm b) 0)).
  destruct (Qeq_bool (np_linalg_norm a) 0 || Qeq_bool (np_linalg_norm b) 0);
    [simpl; reflexivity|].
  pose proof (np_dot_comm a b) as Hdot.
  destruct (np_dot a b) as [d|e], (np_dot b a) as [d'|e']; simpl in *;
    try contradiction; [|exact Hdot].
  rewrite Hdot, (Qmult_comm (np_linalg_norm b)). reflexivity.
Qed.

Lemma sum_squares_nonneg v :
  (0 <= fold_right (fun x acc => x * x + acc) 0 v)%Q.
Proof.
  induction v as [|x v IH]; simpl; [lra|].
  nra.
Qed.

Lemma sum_squares_zero v :
  (fold_right (fun x acc => x * x + acc) 0 v == 0)%Q <-> Props.all_zero v.
Proof.
  unfold Props.all_zero. induction v as [|x v IH]; simpl.
  - split; [constructor|reflexivity].
  - pose proof (sum_squares_nonneg v) as Hv. split.
    + intros Hsum. assert (Hx : (x * x == 0)%Q) by nra.
      constructor.
      * destruct (Qmult_integral _ _ Hx); assumption.
      * apply IH. nra.
    + intros Hall. apply Forall_cons_1 in Hall as [Hx Hrest].
      apply IH in Hrest. rewrite Hx, Hrest. reflexivity.
Qed.

Lemma np_sqrt_zero q : (np_sqrt q == 0)%Q <-> (q <= 0)%Q.
Proof.
  destruct q as [n d]. unfold np_sqrt, Qeq, Qle. cbn [Qnum Qden].
  rewrite Z.mul_1_r, Z.mul_0_l, Z.mul_0_l, <- Z.mul_assoc.
  assert (Hs : (0 < Z.pos d * 2 ^ 128)%Z) by (apply Z.mul_pos_pos; reflexivity).
  set (s := (Z.pos d * 2 ^ 128)%Z) in *. clearbody s.
  rewrite Z.mul_1_r. split.
  - intros Hroot.
    destruct (Z.lt_ge_cases 0 (n * s)) as [Hpos|Hle].
    + apply (proj2 (Z.sqrt_pos _)) in Hpos. lia.
    + destruct (Z.lt_ge_cases 0 n) as [Hn|Hn]; [|lia].
      pose proof (Z.mul_pos_pos _ _ Hn Hs). lia.
  - intros Hn.
    destruct (Z.lt_ge_cases 0 (Z.sqrt (n * s))) as [Hpos|Hle].
    + apply (proj1 (Z.sqrt_pos _)) in Hpos.
      assert (Hns : (n * s <= 0)%Z) by (apply Z.mul_nonpos_nonneg; lia).
      exfalso. exact (Z.lt_irrefl _ (Z.lt_le_trans _ _ _ Hpos Hns)).
    + pose proof (Z.sqrt_nonneg (n * s)). lia.
Qed.

Lemma norm_zero v :
  Qeq_bool (np_linalg_norm v) 0 = true <-> Props.all_zero v.
Proof.
  rewrite Qeq_bool_iff. unfold np_linalg_norm.
  rewrite np_sqrt_zero, <- sum_squares_zero.
  pose proof (sum_squares_nonneg v). split; intros; lra.
Qed.

Lemma norm_nonzero v :
  ~ Props.all_zero v -> Qeq_bool (np_linalg_norm v) 0 = false.
Proof.
  intros Hv. destruct (Qeq_bool (np_linalg_norm v) 0) eqn:E; [|reflexivity].
  apply norm_zero in E. contradiction.
Qed.



Lemma tile_some_length fuel : forall e e',
  tile fuel e = Some e' -> (D <= length e')%nat.
Proof.
  induction fuel as [|fuel IH]; intros e e'; simpl;
    destruct (Nat.ltb_spec (length e) D); try discriminate.
  - intros [= <-]. assumption.
  - apply IH.
  - intros [= <-]. assumption.
Qed.

Lemma tile_empty fuel : tile fuel [] = None.
Proof. induction fuel as [|fuel IH]; simpl; [reflexivity|exact IH]. Qed.

Lemma tile_terminates fuel : forall e,
  (0 < length e)%nat -> (D <= length e * 2 ^ fuel)%nat ->
  exists k, tile fuel e = Some (Spec.doubled k e).
Proof.
  induction fuel as [|fuel IH]; intros e Hpos Hreach; simpl in *.
  - destruct (Nat.ltb_spec (length e) D); [lia|]. exists 0%nat. reflexivity.
  - destruct (Nat.ltb_spec (length e) D).
    + destruct (IH (e ++ e)) as [k Hk].
      * rewrite length_app. lia.
      * rewrite length_app. lia.
      * exists (S k). exact Hk.
    + exists 0%nat. reflexivity.
Qed.

Lemma doubled_In k : forall (e : list Q) x, In x (Spec.doubled k e) -> In x e.
Proof.
  induction k as [|k IH]; intros e x; simpl; [tauto|].
  intros Hin. apply IH in Hin. apply in_app_or in Hin. tauto.
Qed.



(** X9: [embed_content] never returns an empty (falsy) vector, whatever
    the providers answer. *)
Theorem embed_content_never_empty md5_digest api_embedding local_embedding
    text v :
  embed_content md5_digest api_embedding local_embedding text = Some v ->
  v <> [].
Proof.
  unfold embed_content.
  destruct (attempt (api_embedding text)) as [e|] eqn:Hapi.
  { intros [= <-]. apply EmbedderFacts.attempt_truthy in Hapi.
    destruct e; [discriminate|discriminate]. }
  destruct (attempt (local_embedding text)) as [e|] eqn:Hlocal.
  { intros [= <-]. apply EmbedderFacts.attempt_truthy in Hlocal.
    destruct e; [discriminate|discriminate]. }
  assert (Hmock : forall e, _mock_embedding md5_digest text = Some e -> e <> []).
  { unfold _mock_embedding. intros e.
    destruct (tile 11 (map byte_to_float (md5_digest text))) as [e'|] eqn:Ht;
      [|discriminate].
    intros [= <-] Hnil. apply tile_some_length in Ht.
    apply (f_equal (@length Q)) in Hnil. rewrite length_take in Hnil.
    change (length (@nil Q)) with 0%nat in Hnil.
    assert (0 < D)%nat by (unfold D; lia). lia. }
  destruct (_mock_embedding md5_digest text) as [e|] eqn:He; [|discriminate].
  destruct (truthy (Some e)).
  - intros [= <-]. apply Hmock. reflexivity.
  - intros [= <-]. apply Hmock. reflexivity.
Qed.

Lemma embed_content_never_empty_witness :
  exists v,
    embed_content Samples.md5_digest Samples.api_embedding
                  Samples.local_embedding "quantum" = Some v
    /\ v <> [].
Proof.
  destruct (embed_content Samples.md5_digest Samples.api_embedding
              Samples.local_embedding "quantum") as [v|] eqn:Hv.
  - exists v. split; [reflexivity|].
    exact (embed_content_never_empty _ _ _ _ _ Hv).
  - vm_compute in Hv. discriminate.
Defined.

End SimilarityFacts.

(** ** More on the relevance scorer *)

Module ScorerFacts.

Import RelevanceScorer.

Lemma lower_char_idempotent c :
  PyStr.lower_char (PyStr.lower_char c) = PyStr.lower_char c.
Proof.
  destruct c as [[] [] [] [] [] [] [] []]; reflexivity.
Qed.

Lemma lower_char_space c :
  PyStr.is_space (PyStr.lower_char c) = PyStr.is_space c.
Proof.
  destruct c as [[] [] [] [] [] [] [] []]; reflexivity.
Qed.

Lemma lower_idempotent s : PyStr.lower (PyStr.lower s) = PyStr.lower s.
Proof.
  induction s as [|c s IH]; simpl; [reflexivity|].
  now rewrite lower_char_idempotent, IH.
Qed.

(** The number of words depends on where the whitespace is, not on the
    letters. *)
Lemma split_from_lower_length s : forall cur cur',
  (cur = None <-> cur' = None) ->
  length (PyStr.split_from cur (PyStr.lower s))
  = length (PyStr.split_from cur' s).
Proof.
  induction s as [|c s IH]; intros cur cur' Hcur; simpl.
  - destruct cur, cur'; try reflexivity;
      destruct Hcur as [H1 H2]; [specialize (H2 eq_refl)|specialize (H1 eq_refl)];
      discriminate.
  - rewrite lower_char_space. destruct (PyStr.is_space c).
    + destruct cur, cur'; simpl;
        try (rewrite (IH None None) by tauto; reflexivity);
        destruct Hcur as [H1 H2];
        [specialize (H2 eq_refl)|specialize (H1 eq_refl)]; discriminate.
    + apply IH. split; discriminate.
Qed.

(** X10: the quality score does not depend on the case of the letters:
    lowercasing the text of a chunk leaves its score as it is. *)
Theorem quality_case_insensitive (c : chunk) :
  assess_content_quality
    {| text := Some (PyStr.lower (get_text c)); meta := meta c |}
  = assess_content_quality c.
Proof.
  unfold assess_content_quality, indicator_count, PyStr.split.
  change (get_text {| text := Some (PyStr.lower (get_text c));
                      meta := meta c |})
    with (PyStr.lower (get_text c)).
  rewrite lower_idempotent.
  rewrite (split_from_lower_length (get_text c) None None) by tauto.
  reflexivity.
Qed.

(** X11: the quality score is never below 0.4 nor above 1.0, and a chunk
    without text, or with an empty text, scores exactly 0.4. *)
Theorem quality_floor (c : chunk) :
  (0.4 <= assess_content_quality c /\ assess_content_quality c <= 1)%Q
  /\ (get_text c = "" -> assess_content_quality c = 0.4%Q).
Proof.
  split.
  - unfold assess_content_quality.
    generalize (length (PyStr.split (get_text c))) as wc.
    generalize (indicator_count (get_text c)) as n. intros n wc.
    destruct (300 <? wc)%nat, (150 <? wc)%nat, (75 <? wc)%nat,
      (3 <=? n)%nat, (1 <=? n)%nat; split; vm_compute; discriminate.
  - intros Hempty. unfold assess_content_quality, indicator_count.
    rewrite Hempty. reflexivity.
Qed.

Lemma quality_floor_witness :
  assess_content_quality {| text := None; meta := None |} = 0.4%Q.
Proof.
  apply (proj2 (quality_floor {| text := None; meta := None |})).
  reflexivity.
Defined.

Section Dates.

Variable strptime : string -> string -> option datetime.

Lemma recency_score_dated now (h : heap) c d :
  Spec.dated strptime (peek_metadata h c) d ->
  calculate_recency_score strptime now h c = recency_of now d.
Proof.
  unfold calculate_recency_score.
  generalize (peek_metadata h c) as md. intros md Hd.
  destruct Hd as [Hobj|(s & Hs & Hne & Hacc)].
  - rewrite Hobj. reflexivity.
  - rewrite Hs. destruct s as [|a s]; [contradiction|].
    rewrite (RecencyFacts.parse_date_accepted strptime _ _ Hacc). reflexivity.
Qed.

End Dates.

Lemma recency_of_monotone now d1 d2 :
  (timedelta_days now d2 <= timedelta_days now d1)%Z ->
  (recency_of now d1 <= recency_of now d2)%Q.
Proof.
  intros Hdays. unfold recency_of.
  assert (H : (inject_Z (timedelta_days now d2)
               <= inject_Z (timedelta_days now d1))%Q)
    by (rewrite <- Zle_Qle; exact Hdays).
  apply Q.max_le_compat_l.
  unfold Qdiv. change (/ 365)%Q with (1 # 365)%Q.
  change (/ 5)%Q with (1 # 5)%Q. lra.
Qed.

Lemma recency_of_positive now d :
  (0 < recency_of now d)%Q <-> (timedelta_days now d < 1825)%Z.
Proof.
  unfold recency_of. rewrite Q.max_lt_iff.
  assert (Hinj : forall z, (z < 1825)%Z <-> (inject_Z z < 1825)%Q).
  { intros z. change 1825%Q with (inject_Z 1825). rewrite Zlt_Qlt.
    reflexivity. }
  rewrite Hinj. unfold Qdiv. change (/ 365)%Q with (1 # 365)%Q.
  change (/ 5)%Q with (1 # 5)%Q.
  split.
  - intros [H|H]; [exfalso; exact (Qlt_irrefl _ H)|lra].
  - intros H. right. lra.
Qed.

(** X12: of two dated chunks scored at the same moment, the one that is
    not older does not score lower; and a dated chunk scores above 0
    exactly when it is less than 1825 days old. *)
Theorem recency_monotone strptime now (h : heap) c1 c2 d1 d2 :
  Spec.dated strptime (peek_metadata h c1) d1 ->
  Spec.dated strptime (peek_metadata h c2) d2 ->
  ((timedelta_days now d2 <= timedelta_days now d1)%Z ->
   (calculate_recency_score strptime now h c1
    <= calculate_recency_score strptime now h c2)%Q)
  /\ ((0 < calculate_recency_score strptime now h c1)%Q
      <-> (timedelta_days now d1 < 1825)%Z).
Proof.
  intros H1 H2.
  rewrite (recency_score_dated strptime now h c1 d1 H1).
  rewrite (recency_score_dated strptime now h c2 d2 H2).
  split; [apply recency_of_monotone|apply recency_of_positive].
Qed.

(** A chunk dated 2016-03-01 against one dated 2023-01-15, both scored at
    noon of 2024-06-01. *)
Lemma recency_monotone_witness :
  (calculate_recency_score Samples.strptime Samples.noon_2024_06_01
     (Samples.two_dicts (Samples.with_date (DateStr "2016-03-01"))
                        (Samples.with_date (DateStr "2023-01-15")))
     Samples.chunk_1
   <= calculate_recency_score Samples.strptime Samples.noon_2024_06_01
        (Samples.two_dicts (Samples.with_date (DateStr "2016-03-01"))
                           (Samples.with_date (DateStr "2023-01-15")))
        Samples.chunk_2)%Q.
Proof.
  apply (proj1 (recency_monotone Samples.strptime Samples.noon_2024_06_01
                  (Samples.two_dicts (Samples.with_date (DateStr "2016-03-01"))
                                     (Samples.with_date (DateStr "2023-01-15")))
                  Samples.chunk_1 Samples.chunk_2
                  {| dt_ordinal := 736024; dt_micros := 0 |}
                  {| dt_ordinal := 738535; dt_micros := 0 |}
                  ltac:(right; exists "2016-03-01"; split; [reflexivity|];
                        split; [discriminate|];
                        exists [], "%Y-%m-%d",
                          ["%Y/%m/%d"; "%Y-%m-%dT%H:%M:%S"];
                        split; [reflexivity|]; split; [reflexivity|];
                        intros f [])
                  ltac:(right; exists "2023-01-15"; split; [reflexivity|];
                        split; [discriminate|];
                        exists [], "%Y-%m-%d",
                          ["%Y/%m/%d"; "%Y-%m-%dT%H:%M:%S"];
                        split; [reflexivity|]; split; [reflexivity|];
                        intros f []))).
  vm_compute. discriminate.
Defined.

End ScorerFacts.

(** ** What the stages leave alone *)

Module ProvenanceFacts.

Import RelevanceScorer RankAggregator.

(** The stores around a piece of code that keeps every dict it found and
    the provenance fields of every dict. *)
Local Abbreviation keeps h h' :=
  (dom h ⊆ dom h' /\ forall l : positive,
      Props.same_provenance (h !!! l) (h' !!! l)).

Lemma same_provenance_refl md : Props.same_provenance md md.
Proof. repeat split. Qed.

Lemma same_provenance_trans md1 md2 md3 :
  Props.same_provenance md1 md2 -> Props.same_provenance md2 md3 ->
  Props.same_provenance md1 md3.
Proof.
  intros (A1 & A2 & A3 & A4 & A5 & A6) (B1 & B2 & B3 & B4 & B5 & B6).
  repeat split; congruence.
Qed.

Lemma keeps_refl (h : heap) : keeps h h.
Proof. split; [reflexivity|]. intros l. apply same_provenance_refl. Qed.

Lemma keeps_trans (h1 h2 h3 : heap) : keeps h1 h2 -> keeps h2 h3 -> keeps h1 h3.
Proof.
  intros [D1 P1] [D2 P2]. split; [etransitivity; eassumption|].
  intros l. eapply same_provenance_trans; [apply P1|apply P2].
Qed.

Lemma keeps_store (h : heap) l (f : metadata -> metadata) :
  (forall md, Props.same_provenance md (f md)) ->
  keeps h (<[l := f (h !!! l)]> h).
Proof.
  intros Hf. split.
  - rewrite dom_insert_L. apply union_subseteq_r.
  - intros l0. destruct (decide (l0 = l)) as [->|Hne].
    + rewrite lookup_total_insert_eq. apply Hf.
    + rewrite lookup_total_insert_ne by congruence.
      apply same_provenance_refl.
Qed.

Lemma keeps_alloc (h : heap) l :
  l ∉ dom h -> keeps h (<[l := empty_metadata]> h).
Proof.
  intros Hfresh. split.
  - rewrite dom_insert_L. apply union_subseteq_r.
  - intros l0. destruct (decide (l0 = l)) as [->|Hne].
    + rewrite lookup_total_insert_eq, lookup_total_alt.
      apply not_elem_of_dom in Hfresh. rewrite Hfresh.
      apply same_provenance_refl.
    + rewrite lookup_total_insert_ne by congruence.
      apply same_provenance_refl.
Qed.

Lemma chunk_metadata_keeps c (h h' : heap) r :
  chunk_metadata c h = (h', r) ->
  keeps h h'
  /\ exists l, r = Ok l /\ forall l0, meta c = Some l0 -> l = l0.
Proof.
  unfold chunk_metadata. destruct (meta c) as [l|]; intros [= <- <-].
  - split; [apply keeps_refl|]. exists l. split; [reflexivity|].
    intros l0 [= <-]. reflexivity.
  - split; [apply keeps_alloc, is_fresh|]. eexists. split; [reflexivity|].
    intros l0 [=].
Qed.

Lemma compute_similarity_raises a b e :
  Embedder.compute_similarity a b = Raise e -> e = ValueError.
Proof.
  unfold Embedder.compute_similarity.
  destruct (negb (truthy (Some a)) || negb (truthy (Some b))); [discriminate|].
  destruct (Qeq_bool _ 0 || Qeq_bool _ 0); [discriminate|].
  pose proof (SimilarityFacts.np_dot_length a b) as Hdot.
  destruct (Embedder.np_dot a b); [discriminate|].
  intros [= <-]. apply Hdot.
Qed.

(** What a stage emits for a chunk: a chunk with the same text that
    refers to the same metadata dict, when the chunk had one. *)
Local Abbreviation carried c c' :=
  (get_text c' = get_text c
   /\ forall l : positive, meta c = Some l -> meta c' = Some l).

Section Library.

Variable embed_content : string -> list Q.

(** One round of the loop of [score_chunks], for a query embedding
    [x :: v]. *)
Lemma score_round x v c (g g' : heap) s :
  bind (chunk_metadata c) (fun metadata =>
  bind (load metadata) (fun md =>
    let chunk_embedding := embedding md in
    let chunk_embedding :=
      match text c with
      | Some chunk_text =>
          if negb (truthy chunk_embedding)
          then Some (embed_content chunk_text) else chunk_embedding
      | None => chunk_embedding
      end in
    match chunk_embedding with
    | Some ((_ :: _) as chunk_embedding) =>
        bind (lift (Embedder.compute_similarity (x :: v) chunk_embedding))
          (fun similarity =>
        let quality_score := assess_content_quality c in
        bind (store metadata (set_relevance_score similarity)) (fun _ =>
        bind (store metadata (set_quality_score quality_score)) (fun _ =>
        bind (store metadata (set_embedding chunk_embedding)) (fun _ =>
        ret {| text := Some (get_text c); meta := Some metadata |}))))
    | _ =>
        bind (store metadata (set_relevance_score 0.1)) (fun _ => ret c)
    end)) g = (g', s) ->
  keeps g g'
  /\ match s with
     | Ok y => carried c y
     | Raise e => e = ValueError
     end.
Proof.
  unfold bind at 1.
  destruct (chunk_metadata c g) as [g1 s1] eqn:Hcm.
  destruct (chunk_metadata_keeps _ _ _ _ Hcm) as [K1 (l & -> & Hl)].
  unfold bind at 1, load.
  set (ce := match text c with
             | Some chunk_text =>
                 if negb (truthy (embedding (g1 !!! l)))
                 then Some (embed_content chunk_text)
                 else embedding (g1 !!! l)
             | None => embedding (g1 !!! l)
             end).
  assert (Hpass :
    bind (store l (set_relevance_score 0.1)) (fun _ => ret c) g1 = (g', s) ->
    keeps g g' /\ match s with
                  | Ok y => carried c y
                  | Raise e => e = ValueError
                  end).
  { unfold bind, store, ret. intros [= <- <-]. split.
    - eapply keeps_trans; [exact K1|].
      apply (keeps_store _ l (set_relevance_score 0.1)).
      intros md. repeat split.
    - split; auto. }
  destruct ce as [[|y w]|]; try exact Hpass. clear Hpass.
  unfold bind at 1, lift.
  destruct (Embedder.compute_similarity (x :: v) (y :: w)) as [sim|e] eqn:Hsim.
  - unfold bind, store, ret. intros [= <- <-]. split.
    + eapply keeps_trans; [exact K1|].
      eapply keeps_trans; [apply (keeps_store g1 l (set_relevance_score sim));
                           intros md; repeat split|].
      eapply keeps_trans;
        [apply (keeps_store _ l (set_quality_score (assess_content_quality c)));
         intros md; repeat split|].
      apply (keeps_store _ l (set_embedding (y :: w))).
      intros md. repeat split.
    + split; [reflexivity|]. intros l0 Hl0. rewrite (Hl l0 Hl0). reflexivity.
  - intros [= <- <-]. split; [exact K1|].
    exact (compute_similarity_raises _ _ _ Hsim).
Qed.

(** The whole of [score_chunks]. *)
Lemma score_chunks_keeps q chunks (h h' : heap) r :
  score_chunks embed_content q chunks h = (h', r) ->
  keeps h h'
  /\ match r with
     | Ok out => Forall2 (fun c c' => carried c c') chunks out
     | Raise e => e = ValueError
     end.
Proof.
  unfold score_chunks.
  set (qe := match q_text q with
             | Some query_text =>
                 if negb (truthy (query_embedding q))
                 then Some (embed_content query_text) else query_embedding q
             | None => query_embedding q
             end).
  assert (Hsame : Forall2 (fun c c' => carried c c') chunks chunks).
  { clear. induction chunks; constructor; [split; auto|assumption]. }
  destruct qe as [[|x v]|];
    try (intros [= <- <-]; split; [apply keeps_refl|exact Hsame]).
  unfold for_each. intros Hrun.
  apply (LoopFacts.for_each_from_outcome
           (fun g g' => keeps g g') (fun c c' => carried c c')
           (fun e => e = ValueError)) in Hrun.
  - exact Hrun.
  - apply keeps_refl.
  - apply keeps_trans.
  - intros _ c g g' s _. apply score_round.
Qed.


End Library.


End ProvenanceFacts.

(** ** The whole of [select_content] *)

Module SelectionFacts.

Import RelevanceScorer RankAggregator.

(** The dicts of the store [h0] are in the store [g], as they were. *)
Local Abbreviation untouched h0 g :=
  (dom h0 ⊆ dom g /\ forall l : positive, l ∈ dom h0 -> g !!! l = h0 !!! l).

(** The chunk [c'] has the text of [c] and refers to a dict that the
    store [h0] did not have. *)
Local Abbreviation owned h0 c c' :=
  (get_text c' = get_text c
   /\ exists l : positive, meta c' = Some l /\ l ∉ dom h0).

Lemma untouched_insert (h0 g : heap) l md :
  untouched h0 g -> l ∉ dom h0 -> untouched h0 (<[l := md]> g).
Proof.
  intros [Hdom Hcells] Hl. split.
  - rewrite dom_insert_L. intros l0 Hl0. apply elem_of_union_r, Hdom, Hl0.
  - intros l0 Hl0. rewrite lookup_total_insert_ne; [apply Hcells, Hl0|].
    intros <-. contradiction.
Qed.

Section Library.

Variable strptime : string -> string -> option datetime.
Variable embed_content : string -> list Q.
Variable now : nat -> datetime.
Variable weights : RankAggregator.weights.

(** One round of the recency loop. *)
Lemma recency_round (h0 : heap) i c (g g' : heap) s :
  untouched h0 g ->
  bind (read (fun h => calculate_recency_score strptime (now i) h c))
    (fun recency_score =>
  bind (read (fun h => peek_metadata h c)) (fun md =>
  bind (copy_dict md) (fun metadata =>
  bind (store metadata (set_recency_score recency_score)) (fun _ =>
  ret {| text := Some (get_text c); meta := Some metadata |})))) g = (g', s) ->
  untouched h0 g'
  /\ match s with
     | Ok y => owned h0 c y
     | Raise _ => True
     end.
Proof.
  intros Hinv. unfold bind, read, copy_dict, store, ret.
  intros [= <- <-].
  assert (Hfresh : fresh (dom g) ∉ dom h0).
  { intros Hin. apply (is_fresh (dom g)). apply Hinv. exact Hin. }
  split.
  - apply untouched_insert; [|exact Hfresh].
    apply untouched_insert; assumption.
  - split; [reflexivity|]. eexists. split; [reflexivity|exact Hfresh].
Qed.

(** One round of an annotating loop, on a chunk that refers to a dict the
    store [h0] did not have. *)
Lemma annotate_round (score : metadata -> result Q)
    (set : Q -> metadata -> metadata) (h0 : heap) c (g g' : heap) s :
  untouched h0 g ->
  (exists l, meta c = Some l /\ l ∉ dom h0) ->
  bind (chunk_metadata c) (fun metadata =>
  bind (load metadata) (fun md =>
  bind (lift (score md)) (fun v =>
  bind (store metadata (set v)) (fun _ =>
  ret {| text := Some (get_text c); meta := Some metadata |})))) g = (g', s) ->
  untouched h0 g'
  /\ match s with
     | Ok y => owned h0 c y
     | Raise _ => True
     end.
Proof.
  intros Hinv (l & Hl & Hfresh).
  unfold bind, chunk_metadata, load, lift, store, ret. rewrite Hl.
  destruct (score (g !!! l)) as [v|e]; intros [= <- <-].
  - split; [apply untouched_insert; assumption|].
    split; [reflexivity|]. exists l. split; [reflexivity|exact Hfresh].
  - split; [exact Hinv|exact I].
Qed.

Lemma owned_refs (h0 : heap) cs cs' :
  Forall2 (fun c c' => owned h0 c c') cs cs' ->
  forall c', In c' cs' -> exists l, meta c' = Some l /\ l ∉ dom h0.
Proof.
  induction 1 as [|c c' cs cs' [_ Hc'] _ IH]; intros x; simpl; [tauto|].
  intros [<-|Hin]; [exact Hc'|apply IH, Hin].
Qed.

(** An annotating loop over chunks that refer to dicts the store [h0]
    did not have. *)
Lemma annotate_owned (score : metadata -> result Q)
    (set : Q -> metadata -> metadata) (h0 : heap) cs (g g' : heap) r :
  untouched h0 g ->
  (forall c, In c cs -> exists l, meta c = Some l /\ l ∉ dom h0) ->
  Stage.annotate score set cs g = (g', r) ->
  untouched h0 g'
  /\ match r with
     | Ok out => Forall2 (fun c c' => owned h0 c c') cs out
     | Raise _ => True
     end.
Proof.
  intros Hinv Hrefs. unfold Stage.annotate, for_each.
  apply (LoopFacts.for_each_from_invariant
           (fun g => untouched h0 g) (fun c c' => owned h0 c c')).
  - intros _ c g1 g2 s Hin Hg1. apply annotate_round.
    + exact Hg1.
    + apply Hrefs, Hin.
  - exact Hinv.
Qed.

(** The stages of [select_content] after the scoring of relevance, run
    from the store [h1] on the chunks [cs1]. *)
Lemma later_stages cs1 top_n (h1 h' : heap) r :
  bind (for_each_from 0 (fun i c =>
          bind (read (fun h =>
                  calculate_recency_score strptime (now i) h c))
            (fun recency_score =>
          bind (read (fun h => peek_metadata h c)) (fun md =>
          bind (copy_dict md) (fun metadata =>
          bind (store metadata (set_recency_score recency_score)) (fun _ =>
          ret {| text := Some (get_text c); meta := Some metadata |})))))
          cs1)
    (fun recency_scored_chunks =>
  bind (compute_authority_scores recency_scored_chunks)
    (fun authority_scored_chunks =>
  bind (calculate_final_scores weights authority_scored_chunks)
    (fun final_scored_chunks =>
  select_top_chunks final_scored_chunks top_n))) h1 = (h', r) ->
  untouched h1 h'
  /\ match r with
     | Ok out =>
         exists cs4,
           Forall2 (fun c c' => get_text c' = get_text c) cs1 cs4
           /\ out = slice_to top_n (sorted_reverse (final_score_key h') cs4)
     | Raise _ => True
     end.
Proof.
  assert (H1 : untouched h1 h1) by (split; [reflexivity|reflexivity]).
  unfold bind at 1.
  destruct (for_each_from _ _ cs1 h1) as [h2 r2] eqn:Hrec.
  apply (LoopFacts.for_each_from_invariant
           (fun g => untouched h1 g) (fun c c' => owned h1 c c')) in Hrec;
    [|intros i c g g' s _; apply recency_round|exact H1].
  destruct Hrec as [H2 Hr2].
  destruct r2 as [cs2|e]; [|intros [= <- <-]; split; [exact H2|exact I]].
  unfold bind at 1.
  rewrite AuthorityFacts.compute_authority_scores_annotate.
  destruct (Stage.annotate _ _ cs2 h2) as [h3 r3] eqn:Haut.
  apply (annotate_owned _ _ h1) in Haut;
    [|exact H2|exact (owned_refs _ _ _ Hr2)].
  destruct Haut as [H3 Hr3].
  destruct r3 as [cs3|e]; [|intros [= <- <-]; split; [exact H3|exact I]].
  unfold bind at 1.
  rewrite FusionFacts.calculate_final_scores_annotate.
  destruct (Stage.annotate _ _ cs3 h3) as [h4 r4] eqn:Hfin.
  apply (annotate_owned _ _ h1) in Hfin;
    [|exact H3|exact (owned_refs _ _ _ Hr3)].
  destruct Hfin as [H4 Hr4].
  destruct r4 as [cs4|e]; [|intros [= <- <-]; split; [exact H4|exact I]].
  unfold select_top_chunks, rank_chunks, bind, ret. intros [= <- <-].
  split; [exact H4|]. exists cs4. split; [|reflexivity].
  clear - Hr2 Hr3 Hr4.
  revert cs3 cs4 Hr3 Hr4.
  induction Hr2 as [|c1 c2 cs1 cs2 [Ht2 _] _ IH]; intros cs3 cs4 Hr3 Hr4.
  - inversion Hr3; subst. inversion Hr4; subst. constructor.
  - inversion Hr3 as [|? c3 ? cs3' [Ht3 _] Hr3']; subst.
    inversion Hr4 as [|? c4 ? cs4' [Ht4 _] Hr4']; subst.
    constructor; [congruence|]. eapply IH; eassumption.
Qed.

(** [select_content] on a truthy query and a non-empty list, stage by
    stage. *)
Lemma select_content_run q chunks top_n (h h' : heap) r :
  ContentSelector.select_content strptime embed_content now weights
    q chunks top_n h = (h', r) ->
  (negb (query_truthy q) || is_empty chunks = true /\ h' = h /\ r = Ok [])
  \/ (negb (query_truthy q) || is_empty chunks = false
      /\ exists h1 r1,
           (dom h ⊆ dom h1
            /\ forall l, Props.same_provenance (h !!! l) (h1 !!! l))
           /\ untouched h1 h'
           /\ match r1 with
              | Ok cs1 =>
                  Forall2 (fun c c' => get_text c' = get_text c) chunks cs1
                  /\ match r with
                     | Ok out =>
                         exists cs4,
                           Forall2 (fun c c' => get_text c' = get_text c)
                                   cs1 cs4
                           /\ out = slice_to top_n
                                      (sorted_reverse (final_score_key h') cs4)
                     | Raise _ => True
                     end
              | Raise _ => h' = h1 /\ r = Raise ValueError
              end).
Proof.
  unfold ContentSelector.select_content.
  destruct (negb (query_truthy q) || is_empty chunks).
  { intros [= <- <-]. left. auto. }
  intros Hrun. right. split; [reflexivity|]. unfold bind at 1 in Hrun.
  destruct (score_chunks embed_content _ chunks h) as [h1 r1] eqn:Hscore.
  destruct (ProvenanceFacts.score_chunks_keeps _ _ _ _ _ _ Hscore)
    as [Hkeeps Hr1].
  exists h1, r1. split; [exact Hkeeps|].
  destruct r1 as [cs1|e].
  - apply later_stages in Hrun as [Hun Hr].
    split; [exact Hun|]. split; [|exact Hr].
    apply (Forall2_impl _ _ _ _ Hr1). intros c c' [Ht _]. exact Ht.
  - injection Hrun as <- <-. split; [split; [reflexivity|reflexivity]|].
    split; [reflexivity|]. rewrite Hr1. reflexivity.
Qed.

(** X14: whatever [select_content] does, returning or raising, it keeps
    every dict that the store had and leaves the [url], [source_type] and
    [publication_date] of each as they were, as well as any recency,
    authority and final score found there: its writes into the caller's
    dicts are confined to [embedding], [relevance_score] and
    [quality_score]. *)
Theorem select_content_keeps_provenance q chunks top_n (h h' : heap) r :
  ContentSelector.select_content strptime embed_content now weights
    q chunks top_n h = (h', r) ->
  dom h ⊆ dom h'
  /\ forall l, l ∈ dom h -> Props.same_provenance (h !!! l) (h' !!! l).
Proof.
  intros Hrun.
  destruct (select_content_run _ _ _ _ _ _ Hrun)
    as [(_ & -> & _)|(_ & h1 & r1 & [Hdom Hprov] & [Hdom' Hcells] & _)].
  - split; [reflexivity|]. intros l _.
    apply ProvenanceFacts.same_provenance_refl.
  - split; [etransitivity; eassumption|].
    intros l Hl. rewrite (Hcells l (Hdom l Hl)). apply Hprov.
Qed.

Lemma slice_to_sorted {A} (R : A -> A -> Prop) n xs :
  StronglySorted R xs -> StronglySorted R (slice_to n xs).
Proof.
  intros Hs. destruct (AggregatorFacts.slice_to_prefix n xs) as [k ->].
  rewrite <- (take_drop k xs) in Hs.
  apply AggregatorFacts.sorted_app_order in Hs. apply Hs.
Qed.

Lemma Forall2_In_r {A B} (T : A -> B -> Prop) xs ys y :
  Forall2 T xs ys -> In y ys -> exists x, In x xs /\ T x y.
Proof.
  induction 1 as [|x y' xs ys Hxy _ IH]; simpl; [tauto|].
  intros [<-|Hin].
  - exists x. split; [left; reflexivity|exact Hxy].
  - destruct (IH Hin) as (x' & Hx' & HT). exists x'. split; [right|]; assumption.
Qed.


End Library.

(** Two chunks with embeddings [[1]] and [[-1]], ranked for a query with
    embedding [[1]] and [top_n = 1]: one chunk comes back, and the dict at
    reference 2 keeps its provenance fields. *)
Lemma select_content_keeps_provenance_witness :
  exists h' out,
    ContentSelector.select_content Samples.strptime Samples.embed_content
      Samples.now default_weights (Samples.embedded_query [1%Q])
      [Samples.chunk_1; Samples.chunk_2] 1
      (Samples.two_dicts (Samples.with_embedding [1%Q])
                         (Samples.with_embedding [(-1)%Q]))
    = (h', Ok out)
    /\ Props.same_provenance (Samples.with_embedding [(-1)%Q])
                             (h' !!! 2%positive).
Proof.
  eexists _, _. split; [vm_compute; reflexivity|].
  refine (proj2 (select_content_keeps_provenance Samples.strptime
                   Samples.embed_content Samples.now default_weights
                   (Samples.embedded_query [1%Q])
                   [Samples.chunk_1; Samples.chunk_2] 1%Z
                   (Samples.two_dicts (Samples.with_embedding [1%Q])
                                      (Samples.with_embedding [(-1)%Q]))
                   _ _ _) 2%positive _).
  - vm_compute. reflexivity.
  - apply elem_of_dom. eexists. apply lookup_insert_eq.
Defined.


End SelectionFacts.

(** ** More on the engine *)

Module EngineFacts.

Import RankAggregator RankingSystem.

(** X16: a query dict that has a text and no embedding (with an empty
    metadata dict, as the API route builds it, or with none) is completed
    by the selector to the very query the engine builds from the raw
    text, and so [rank_content] and [process_and_rank] treat it exactly as
    they treat the raw string. *)
Theorem text_only_dict_as_raw_string strptime embed_content now weights
    start_time end_time self query_text md chunks top_n (h : heap) :
  md = None \/ md = Some None ->
  ContentSelector.process_query embed_content
    {| q_text := Some query_text; q_metadata := md |}
  = process_query embed_content query_text
  /\ rank_content strptime embed_content now weights start_time end_time
       self (QDict {| q_text := Some query_text; q_metadata := md |})
       chunks top_n h
     = rank_content strptime embed_content now weights start_time end_time
         self (QText query_text) chunks top_n h
  /\ process_and_rank strptime embed_content now weights start_time end_time
       self (QDict {| q_text := Some query_text; q_metadata := md |})
       chunks top_n h
     = process_and_rank strptime embed_content now weights start_time
         end_time self (QText query_text) chunks top_n h.
Proof.
  intros Hmd.
  assert (Hsel : forall n,
    ContentSelector.select_content strptime embed_content now weights
      {| q_text := Some query_text; q_metadata := md |} chunks n h
    = ContentSelector.select_content strptime embed_content now weights
        (process_query embed_content query_text) chunks n h).
  { intros n. destruct Hmd as [-> | ->]; reflexivity. }
  assert (Hrank :
    rank_content strptime embed_content now weights start_time end_time
      self (QDict {| q_text := Some query_text; q_metadata := md |})
      chunks top_n h
    = rank_content strptime embed_content now weights start_time end_time
        self (QText query_text) chunks top_n h).
  { unfold rank_content, try_except, bind. rewrite Hsel. reflexivity. }
  split; [destruct Hmd as [-> | ->]; reflexivity|].
  split; [exact Hrank|].
  unfold process_and_rank, bind. rewrite Hrank.
  unfold rank_content, try_except, bind. reflexivity.
Qed.

Lemma text_only_dict_as_raw_string_witness :
  rank_content Samples.strptime Samples.embed_content Samples.now
    default_weights 0 1 Samples.fresh_system
    (QDict {| q_text := Some "quantum"; q_metadata := Some None |})
    [Samples.chunk_1] None (Samples.one_dict Samples.empty_dict)
  = rank_content Samples.strptime Samples.embed_content Samples.now
      default_weights 0 1 Samples.fresh_system (QText "quantum")
      [Samples.chunk_1] None (Samples.one_dict Samples.empty_dict).
Proof.
  apply (text_only_dict_as_raw_string Samples.strptime Samples.embed_content
           Samples.now default_weights 0 1 Samples.fresh_system "quantum"
           (Some None) [Samples.chunk_1] None
           (Samples.one_dict Samples.empty_dict)).
  right. reflexivity.
Defined.

Lemma moving_average_between avg e :
  (Qmin avg e <= (if Qeq_bool avg 0 then e else 0.9 * avg + 0.1 * e)
   /\ (if Qeq_bool avg 0 then e else 0.9 * avg + 0.1 * e) <= Qmax avg e)%Q.
Proof.
  destruct (Qeq_bool avg 0).
  - split; [apply Q.le_min_r|apply Q.le_max_r].
  - destruct (Q.min_spec avg e) as [[Hlt ->]|[Hle ->]];
      destruct (Q.max_spec avg e) as [[Hlt' ->]|[Hle' ->]]; split; lra.
Qed.

(** X17: [rank_content] counts what it ranked: when the selection
    returns, [total_queries] grows by one and [total_chunks] by the number
    of chunks given (not by the number returned), and the new average time
    lies between the old average and the time of this call (it is the time
    of this call when the old average is 0); when the selection raises,
    the engine is left as it was and the answer is the empty list.  The
    configured [top_n] is never changed. *)
Theorem rank_content_metrics strptime embed_content now weights
    start_time end_time self q chunks top_n (h : heap) :
  exists h' self' ranked,
    rank_content strptime embed_content now weights start_time end_time
                 self q chunks top_n h = (h', Ok (self', ranked))
    /\ config_top_n self' = config_top_n self
    /\ ((total_queries (sys_metrics self')
         = (total_queries (sys_metrics self) + 1)%Z
         /\ total_chunks_seen (sys_metrics self')
            = (total_chunks_seen (sys_metrics self)
               + Z.of_nat (length chunks))%Z
         /\ (Qmin (average_time (sys_metrics self)) (end_time - start_time)
             <= average_time (sys_metrics self'))%Q
         /\ (average_time (sys_metrics self')
             <= Qmax (average_time (sys_metrics self))
                     (end_time - start_time))%Q
         /\ (Qeq_bool (average_time (sys_metrics self)) 0 = true ->
             average_time (sys_metrics self') = (end_time - start_time)%Q))
        \/ (self' = self /\ ranked = [])).
Proof.
  destruct (SystemFacts.rank_content_outcome strptime embed_content now
              weights start_time end_time self q chunks top_n h)
    as [(h' & ranked & _ & Hrank)|(h' & e & _ & Hrank)].
  - eexists _, _, _. split; [exact Hrank|]. split; [reflexivity|].
    left. simpl.
    pose proof (moving_average_between (average_time (sys_metrics self))
                  (end_time - start_time)) as [Hlo Hhi].
    repeat split; try assumption.
    intros Hzero. rewrite Hzero. reflexivity.
  - eexists _, _, _. split; [exact Hrank|]. split; [reflexivity|].
    right. split; reflexivity.
Qed.

(** On an engine that has not ranked yet, the first call sets the average
    to the time it took. *)
Lemma rank_content_metrics_witness :
  exists h' self' ranked,
    rank_content Samples.strptime Samples.embed_content Samples.now
      default_weights 0 1 Samples.fresh_system
      (QDict (Samples.embedded_query [1%Q])) [Samples.chunk_1] None
      (Samples.one_dict (Samples.with_embedding [1%Q]))
    = (h', Ok (self', ranked))
    /\ average_time (sys_metrics self') = (1 - 0)%Q.
Proof.
  destruct (rank_content_metrics Samples.strptime Samples.embed_content
              Samples.now default_weights 0 1 Samples.fresh_system
              (QDict (Samples.embedded_query [1%Q])) [Samples.chunk_1] None
              (Samples.one_dict (Samples.with_embedding [1%Q])))
    as (h' & self' & ranked & Hrank & _ & Hcases).
  exists h', self', ranked. split; [exact Hrank|].
  destruct Hcases as [(_ & _ & _ & _ & Hfirst)|[-> ->]].
  - apply Hfirst. reflexivity.
  - vm_compute in Hrank. discriminate Hrank.
Defined.

(** X18: the settings that [_load_config] returns hold, under every key,
    the value of the settings file when the file has that key and the
    default otherwise; so [model] and [top_n] are always present, and no
    key of the file is lost. *)
Theorem load_config_lookup (file : option (gmap string Config.setting)) key :
  Config._load_config file !! key
  = match file with
    | Some ranking_config =>
        match ranking_config !! key with
        | Some v => Some v
        | None => Config.default_config !! key
        end
    | None => Config.default_config !! key
    end.
Proof.
  destruct file as [rc|]; [|reflexivity].
  unfold Config._load_config, Config.default_items. cbn [fold_left].
  assert (Hfill : forall (m : gmap string Config.setting) item k,
    Config.fill_default m item !! k
    = match m !! k with
      | Some v => Some v
      | None => if decide (k = fst item) then Some (snd item) else None
      end).
  { intros m item k. unfold Config.fill_default.
    destruct (m !! fst item) eqn:E.
    - destruct (m !! k) eqn:Ek; [reflexivity|].
      destruct (decide (k = fst item)) as [->|Hne]; [congruence|reflexivity].
    - destruct (decide (k = fst item)) as [->|Hne].
      + rewrite lookup_insert_eq, E. reflexivity.
      + rewrite lookup_insert_ne by congruence.
        destruct (m !! k); reflexivity. }
  rewrite Hfill, Hfill. cbn [fst snd].
  destruct (rc !! key) as [v|]; [reflexivity|].
  destruct (decide (key = "model")) as [->|Hm]; [reflexivity|].
  destruct (decide (key = "top_n")) as [->|Ht]; [reflexivity|].
  unfold Config.default_config, Config.default_items.
  cbn [list_to_map foldr fst snd]. symmetry.
  rewrite lookup_insert_ne by congruence.
  rewrite lookup_insert_ne by congruence.
  apply lookup_empty.
Qed.

End EngineFacts.

(** ** More on the authority of a source *)

Module DomainFacts.

Import RankAggregator.

Lemma strip_prefix_misses p : forall d t,
  Props.free_of "/" p ->
  t = "" \/ (exists rest, t = String "/" rest) ->
  strip_prefix p d = None ->
  strip_prefix p (d +:+ t) = None.
Proof.
  induction p as [|a p IH]; intros d t Hfree Ht; simpl; [discriminate|].
  destruct Hfree as [Ha Hfree]. destruct d as [|b d]; simpl.
  - intros _. destruct Ht as [->|[rest ->]]; [reflexivity|]. simpl.
    destruct (Ascii.eqb_spec a "/"); [contradiction|reflexivity].
  - destruct (Ascii.eqb a b); [|reflexivity]. apply IH; assumption.
Qed.

Lemma strip_prefix_app p s : strip_prefix p (p +:+ s) = Some s.
Proof.
  induction p as [|a p IH]; simpl; [reflexivity|].
  rewrite Ascii.eqb_refl. exact IH.
Qed.

Lemma span_stops d : forall t,
  Props.free_of "/" d ->
  t = "" \/ (exists rest, t = String "/" rest) ->
  span_not_slash (d +:+ t) = d.
Proof.
  induction d as [|c d IH]; intros t Hfree Ht; simpl.
  - destruct Ht as [->|[rest ->]]; reflexivity.
  - destruct Hfree as [Hc Hfree].
    destruct (Ascii.eqb_spec c "/"); [contradiction|].
    rewrite IH by assumption. reflexivity.
Qed.

Lemma match_domain_at_url scheme r1 :
  scheme = "http://" \/ scheme = "https://" ->
  match_domain_at (scheme +:+ r1)
  = match match strip_prefix "www." r1 with
          | Some r2 => nonempty (span_not_slash r2)
          | None => None
          end with
    | Some d => Some d
    | None => nonempty (span_not_slash r1)
    end.
Proof. intros [-> | ->]; reflexivity. Qed.

Lemma re_search_domain_head s d :
  match_domain_at s = Some d -> re_search_domain s = Some d.
Proof. intros H. destruct s; cbn [re_search_domain]; rewrite H; reflexivity. Qed.

(** X19: from a URL made of [http://] or [https://], a non-empty host
    without a slash, and then nothing or a path that starts with a slash,
    [extract_domain] returns the host; a leading [www.] of the host is
    dropped. *)
Theorem extract_domain_of_url scheme host tail :
  scheme = "http://" \/ scheme = "https://" ->
  host <> "" ->
  Props.free_of "/" host ->
  tail = "" \/ (exists rest, tail = String "/" rest) ->
  (strip_prefix "www." host = None ->
   extract_domain (scheme +:+ host +:+ tail) = host)
  /\ extract_domain (scheme +:+ "www." +:+ host +:+ tail) = host.
Proof.
  intros Hscheme Hne Hfree Htail.
  assert (Hhost : nonempty (span_not_slash (host +:+ tail)) = Some host).
  { rewrite span_stops by assumption. destruct host; [contradiction|reflexivity]. }
  split.
  - intros Hwww.
    pose proof (strip_prefix_misses "www." host tail
                  ltac:(repeat split; discriminate) Htail Hwww) as Hmiss.
    unfold extract_domain.
    rewrite (re_search_domain_head _ host); [reflexivity|].
    rewrite match_domain_at_url by assumption.
    rewrite Hmiss. exact Hhost.
  - unfold extract_domain.
    rewrite (re_search_domain_head _ host); [reflexivity|].
    rewrite match_domain_at_url by assumption.
    rewrite strip_prefix_app, Hhost. reflexivity.
Qed.

Lemma extract_domain_of_url_witness :
  extract_domain ("https://" +:+ "arxiv.org" +:+ "/abs/123.456") = "arxiv.org".
Proof.
  apply (proj1 (extract_domain_of_url "https://" "arxiv.org" "/abs/123.456"
                  ltac:(right; reflexivity) ltac:(discriminate)
                  ltac:(repeat split; discriminate)
                  ltac:(right; eexists; reflexivity))).
  reflexivity.
Defined.

Lemma domain_scores_floor :
  Forall (fun item => (0.5 <= snd item * 0.9 /\ 0.5 <= snd item)%Q)
         domain_scores.
Proof. repeat constructor; vm_compute; discriminate. Qed.

Lemma base_floor domain :
  (0.5 <= match table_lookup domain domain_scores with
          | Some score => score
          | None => default 0.5%Q (partial_match domain domain_scores)
          end)%Q.
Proof.
  pose proof domain_scores_floor as Htable.
  rewrite List.Forall_forall in Htable.
  destruct (table_lookup domain domain_scores) as [v|] eqn:Hexact.
  - apply AuthorityFacts.table_lookup_some in Hexact.
    apply (Htable _ Hexact).
  - destruct (partial_match domain domain_scores) as [x|] eqn:Hpart; simpl.
    + apply AuthorityFacts.partial_match_some in Hpart
        as (before & d & v & after & Hsplit & _ & _ & ->).
      assert (Hin : In (d, v) domain_scores)
        by (rewrite Hsplit; apply in_elt).
      apply (Htable _ Hin).
    + vm_compute. discriminate.
Qed.

(** X20: the authority score is never below 0.5 nor above 1.0, and for
    one and the same URL a chunk marked ["academic"] never scores below a
    chunk that is not. *)
Theorem authority_floor_and_boost md md' :
  (0.5 <= authority_of md /\ authority_of md <= 1)%Q
  /\ (url md' = url md -> source_type md' = Some "academic" ->
      (authority_of md <= authority_of md')%Q).
Proof.
  unfold authority_of.
  pose proof (base_floor (extract_domain (default "" (url md)))) as Hlo.
  pose proof (BoundsFacts.base_in_unit
                (extract_domain (default "" (url md)))) as [_ Hhi].
  set (b := match table_lookup (extract_domain (default "" (url md)))
                    domain_scores with
            | Some score => score
            | None => default 0.5%Q
                        (partial_match (extract_domain (default "" (url md)))
                                       domain_scores)
            end) in *.
  assert (Hboost : (b <= Qmin 1.0 (b * 1.1) /\ Qmin 1.0 (b * 1.1) <= 1)%Q).
  { split.
    - apply Q.min_glb; lra.
    - apply (Qle_trans _ 1.0); [apply Q.le_min_l|lra]. }
  split.
  - destruct (String.eqb _ "academic"); [|split; assumption].
    split; [|apply Hboost]. apply (Qle_trans _ b); [exact Hlo|apply Hboost].
  - intros Hurl Hacademic. rewrite Hurl, Hacademic. fold b. simpl.
    destruct (String.eqb _ "academic"); [apply Qle_refl|apply Hboost].
Qed.

Lemma authority_floor_and_boost_witness :
  (authority_of (Samples.with_url "https://example.com/quantum-basics"
                                  (Some "web"))
   <= authority_of (Samples.with_url "https://example.com/quantum-basics"
                                     (Some "academic")))%Q.
Proof.
  apply (proj2 (authority_floor_and_boost
                  (Samples.with_url "https://example.com/quantum-basics"
                                    (Some "web"))
                  (Samples.with_url "https://example.com/quantum-basics"
                                    (Some "academic")))); reflexivity.
Defined.

End DomainFacts.
